(** * Streamlit button widgets and page navigation: a shallow embedding

    The development follows two modules of the library,
    [streamlit/elements/widgets/button.py] and
    [streamlit/commands/navigation.py].  Python values are modelled as
    the code uses them: [int] as [Z] (list subscripts may be negative),
    [str] as [string], [list] as [list], [dict] as an association list
    in insertion order (the code iterates over its dictionaries),
    exceptions as an error result, and the mutable objects the code
    shares (page objects, the script-run context, the delta stream) as an
    explicit store threaded through every call. *)

From Stdlib Require Import ZArith Ascii String Lia.
From stdpp Require Import base option list strings functions.

Open Scope string_scope.
Open Scope list_scope.
Open Scope Z_scope.

Infix "+++" := String.append (right associativity, at level 60).

(** ** Python preliminaries *)

Module Py.

(** The exceptions the two modules can raise, with their message. *)
Inductive exception : Type :=
| ValueError (msg : string)
| IndexError (msg : string)
| KeyError (msg : string)
| RuntimeError (msg : string)
| UnboundLocalError (name : string)
| StreamlitAPIException (msg : string).

Inductive result (A : Type) : Type :=
| Return (a : A)
| Raise (e : exception).
Arguments Return {A} a.
Arguments Raise {A} e.

Definition bind {A B} (r : result A) (k : A -> result B) : result B :=
  match r with
  | Return a => k a
  | Raise e => Raise e
  end.

(** A list comprehension [[f(x) for x in l]]: elements are evaluated
    left to right and the first exception aborts the comprehension. *)
Fixpoint comprehension {A B} (f : A -> result B) (l : list A)
  : result (list B) :=
  match l with
  | [] => Return []
  | x :: l' =>
      bind (f x) (fun y =>
      bind (comprehension f l') (fun ys => Return (y :: ys)))
  end.

(** [l.index(val)]: position of the first element equal to [val]. *)
Fixpoint index_from {A} `{EqDecision A} (l : list A) (val : A) (i : nat)
  : option nat :=
  match l with
  | [] => None
  | x :: l' => if decide (x = val) then Some i else index_from l' val (S i)
  end.

Definition index {A} `{EqDecision A} (l : list A) (val : A) : result Z :=
  match index_from l val 0 with
  | Some i => Return (Z.of_nat i)
  | None => Raise (ValueError "x is not in list")
  end.

(** [l[i]]: a negative subscript counts from the end of the list; a
    subscript outside [-len(l) .. len(l)-1] raises [IndexError]. *)
Definition getitem {A} (l : list A) (i : Z) : result A :=
  let n := Z.of_nat (length l) in
  let j := if i <? 0 then i + n else i in
  if (0 <=? j) && (j <? n) then
    match l !! Z.to_nat j with
    | Some x => Return x
    | None => Raise (IndexError "list index out of range")
    end
  else Raise (IndexError "list index out of range").

(** [s.replace(old, new)] for one-character [old] and [new]. *)
Fixpoint replace_char (old new : ascii) (s : string) : string :=
  match s with
  | EmptyString => EmptyString
  | String c s' =>
      String (if decide (c = old) then new else c) (replace_char old new s')
  end.

(** The values a button widget exchanges with the client: [None] or a
    [bool]. *)
Inductive value : Type :=
| VNone
| VBool (b : bool).

Definition truthy (v : value) : bool :=
  match v with
  | VNone => false
  | VBool b => b
  end.

(** [x or y] evaluates to [x] when [x] is truthy and to [y] otherwise. *)
Definition or_ (x y : value) : value := if truthy x then x else y.

(** [bool(v)] *)
Definition bool_ (v : value) : value := VBool (truthy v).

Definition is_bool (v : value) : Prop :=
  match v with
  | VBool _ => True
  | VNone => False
  end.

End Py.

Import Py.

(** ** The serializers of [button.py] *)

Module ButtonSerde.

Definition serialize (v : value) : value := bool_ v.

Definition deserialize (ui_value : value) (widget_id : string) : value :=
  or_ ui_value (VBool false).

End ButtonSerde.

Module ButtonGroupOptionsSerde.

Record t : Type := Build {
  options : list string;
  default_value : list Z
}.

Definition serialize (self : t) (value : option (list string))
  : result (list Z) :=
  match value with
  | None => Return []
  | Some value => comprehension (fun val => index (options self) val) value
  end.

Definition deserialize (self : t) (ui_value : option (list Z))
           (widget_id : string) : result (list string) :=
  let current_value :=
    match ui_value with
    | Some ui_value => ui_value
    | None => default_value self
    end in
  comprehension (fun val => getitem (options self) val) current_value.

End ButtonGroupOptionsSerde.

Module ButtonGroupFeedbackSerde.

Record t : Type := Build {
  index_to_score_mapping : option (list Z)
}.

Definition serialize (self : t) (value : option Z) : list Z :=
  match value with
  | None => []
  | Some value => [value]
  end.

Definition deserialize (self : t) (ui_value : option (list Z))
           (widget_id : string) : result (option Z) :=
  match ui_value with
  | None => Return None
  | Some ui_value =>
      match index_to_score_mapping self with
      | None => bind (getitem ui_value 0) (fun v => Return (Some v))
      | Some mapping =>
          bind (getitem ui_value 0) (fun i =>
          bind (getitem mapping i) (fun v => Return (Some v)))
      end
  end.

End ButtonGroupFeedbackSerde.

(** ** Python dictionaries

    A [dict] keeps its keys in insertion order and holds each key once.
    The navigation code iterates over its dictionaries, so they are kept
    as association lists in insertion order. *)

Module Dict.

Definition t (K V : Type) : Type := list (K * V).

Definition keys {K V} (d : t K V) : list K := map fst d.

Definition values {K V} (d : t K V) : list V := map snd d.

(** [d[k]] for a key of the dictionary ([None] stands for [KeyError]). *)
Fixpoint get {K V} `{EqDecision K} (d : t K V) (k : K) : option V :=
  match d with
  | [] => None
  | (k', v) :: d' => if decide (k' = k) then Some v else get d' k
  end.

(** [k in d] *)
Definition mem {K V} `{EqDecision K} (k : K) (d : t K V) : bool :=
  match get d k with
  | Some _ => true
  | None => false
  end.

(** [d[k] = v]: an existing key keeps its position, a new key goes
    last. *)
Fixpoint set {K V} `{EqDecision K} (d : t K V) (k : K) (v : V) : t K V :=
  match d with
  | [] => [(k, v)]
  | (k', v') :: d' =>
      if decide (k' = k) then (k, v) :: d' else (k', v') :: set d' k v
  end.

(** What every Python dictionary satisfies: no key occurs twice. *)
Definition wf {K V} (d : t K V) : Prop := NoDup (keys d).

End Dict.

(** ** Pages, messages and the store *)

(** Page objects are shared and mutated ([page.default = True],
    [page._can_be_called = True]); a page is therefore an address into
    the store below. *)
Definition loc : Type := nat.

(** [page._page] is a [Path] or a callable. *)
Inductive PageSource : Type :=
| Path (p : string)
| Callable (name : string).

Module StreamlitPage.

(** The attributes of [streamlit.navigation.page.StreamlitPage] that
    the two modules read or write. *)
Record t : Type := Build {
  title : string;
  icon : string;
  default : bool;
  _page : PageSource;
  _can_be_called : bool
}.

Definition set_default (b : bool) (p : t) : t :=
  Build (title p) (icon p) b (_page p) (_can_be_called p).

Definition set_can_be_called (b : bool) (p : t) : t :=
  Build (title p) (icon p) (default p) (_page p) b.

End StreamlitPage.

Definition PageHash : Type := string.
Definition SectionHeader : Type := string.

(** [streamlit.source_util.PageInfo], a typed dictionary. *)
Module PageInfo.
Record t : Type := Build {
  page_script_hash : PageHash;
  page_name : string;
  icon : string;
  script_path : string;
  url_pathname : string
}.
End PageInfo.

Inductive Position : Type := HIDDEN | SIDEBAR.

Module AppPage.
Record t : Type := Build {
  page_script_hash : PageHash;
  page_name : string;
  icon : string;
  is_default : bool;
  section_header : SectionHeader;
  url_pathname : string
}.
End AppPage.

Module NavigationProto.
Record t : Type := Build {
  position : Position;
  sections : list SectionHeader;
  app_pages : list AppPage.t;
  page_script_hash : PageHash
}.

Definition set_page_script_hash (h : PageHash) (m : t) : t :=
  Build (position m) (sections m) (app_pages m) h.
End NavigationProto.

(** The two kinds of [ForwardMsg] that [navigation.py] sends. *)
Inductive ForwardMsg : Type :=
| MsgNavigation (nav : NavigationProto.t)
| MsgPageNotFound (page_name : string).

(** The script-run context: what the code reads from it, and the two
    parts it changes (the outbound queue, by [ctx.enqueue], and the page
    table of the pages manager, by [set_pages]). *)
Module ScriptRunContext.
Record t : Type := Build {
  active_script_hash : string;
  main_script_path : string;
  pages : Dict.t PageHash PageInfo.t;
  queue : list ForwardMsg
}.

Definition enqueue (msg : ForwardMsg) (c : t) : t :=
  Build (active_script_hash c) (main_script_path c) (pages c)
        (queue c ++ [msg]).

Definition set_pages (p : Dict.t PageHash PageInfo.t) (c : t) : t :=
  Build (active_script_hash c) (main_script_path c) p (queue c).
End ScriptRunContext.

(** ** Protocol messages of [button.py]

    A protobuf message starts with every field at its default (the empty
    string, [False], the empty list); the code then assigns fields one
    by one. *)

Module ButtonProto.
Record t : Type := Build {
  id : string;
  label : string;
  default : bool;
  is_form_submitter : bool;
  form_id : string;
  type : string;
  use_container_width : bool;
  disabled : bool;
  help : string
}.
End ButtonProto.

Module DownloadButtonProto.
Record t : Type := Build {
  id : string;
  use_container_width : bool;
  label : string;
  default : bool;
  type : string;
  disabled : bool;
  help : string
}.
End DownloadButtonProto.

Module LinkButtonProto.
Record t : Type := Build {
  label : string;
  url : string;
  type : string;
  use_container_width : bool;
  disabled : bool;
  help : string
}.
End LinkButtonProto.

Module PageLinkProto.
Record t : Type := Build {
  disabled : bool;
  label : string;
  icon : string;
  help : string;
  use_container_width : bool;
  page_script_hash : string;
  page : string;
  external : bool
}.

Definition empty : t := Build false "" "" "" false "" "" false.

Definition set_disabled (v : bool) (m : t) : t :=
  Build v (label m) (icon m) (help m) (use_container_width m)
        (page_script_hash m) (page m) (external m).
Definition set_label (v : string) (m : t) : t :=
  Build (disabled m) v (icon m) (help m) (use_container_width m)
        (page_script_hash m) (page m) (external m).
Definition set_icon (v : string) (m : t) : t :=
  Build (disabled m) (label m) v (help m) (use_container_width m)
        (page_script_hash m) (page m) (external m).
Definition set_help (v : string) (m : t) : t :=
  Build (disabled m) (label m) (icon m) v (use_container_width m)
        (page_script_hash m) (page m) (external m).
Definition set_use_container_width (v : bool) (m : t) : t :=
  Build (disabled m) (label m) (icon m) (help m) v
        (page_script_hash m) (page m) (external m).
Definition set_page_script_hash (v : string) (m : t) : t :=
  Build (disabled m) (label m) (icon m) (help m) (use_container_width m)
        v (page m) (external m).
Definition set_page (v : string) (m : t) : t :=
  Build (disabled m) (label m) (icon m) (help m) (use_container_width m)
        (page_script_hash m) v (external m).
Definition set_external (v : bool) (m : t) : t :=
  Build (disabled m) (label m) (icon m) (help m) (use_container_width m)
        (page_script_hash m) (page m) v.
End PageLinkProto.

Inductive ClickMode : Type := BUTTON | RADIO | CHECKBOX.

Module ButtonGroupProto.
Record t : Type := Build {
  id : string;
  options : list string;
  default : list Z;
  disabled : bool;
  click_mode : ClickMode;
  use_container_width : bool
}.
End ButtonGroupProto.

Inductive Proto : Type :=
| PButton (m : ButtonProto.t)
| PDownloadButton (m : DownloadButtonProto.t)
| PLinkButton (m : LinkButtonProto.t)
| PPageLink (m : PageLinkProto.t)
| PButtonGroup (m : ButtonGroupProto.t).

(** ** The store and the monad of commands *)

Module World.
(** Everything a command can read or change: the script-run context
    of the running thread ([None] when the script runs without the
    runtime), the page objects, and the delta stream that
    [DeltaGenerator._enqueue] appends to. *)
Record t : Type := Build {
  ctx : option ScriptRunContext.t;
  heap : loc -> StreamlitPage.t;
  deltas : list (string * Proto)
}.

Definition set_ctx (c : option ScriptRunContext.t) (w : t) : t :=
  Build c (heap w) (deltas w).
Definition set_heap (h : loc -> StreamlitPage.t) (w : t) : t :=
  Build (ctx w) h (deltas w).
Definition set_deltas (d : list (string * Proto)) (w : t) : t :=
  Build (ctx w) (heap w) d.
End World.

(** A command takes the store and either returns a value or raises,
    leaving the store as it was at that point. *)
Definition M (A : Type) : Type := World.t -> result A * World.t.

Definition ret {A} (a : A) : M A := fun w => (Return a, w).

Definition raise {A} (e : exception) : M A := fun w => (Raise e, w).

Definition cbind {A B} (m : M A) (k : A -> M B) : M B :=
  fun w =>
    match m w with
    | (Return a, w') => k a w'
    | (Raise e, w') => (Raise e, w')
    end.

Definition lift {A} (r : result A) : M A := fun w => (r, w).

Definition gets {A} (f : World.t -> A) : M A := fun w => (Return (f w), w).

Definition modify (f : World.t -> World.t) : M unit :=
  fun w => (Return tt, f w).

Notation "'let!' x ':=' m 'in' k" := (cbind m (fun x => k))
  (at level 10, x name, m at level 100, k at level 200).
Notation "'let!' ' pat ':=' m 'in' k" :=
  (cbind m (fun x => match x with pat => k end))
  (at level 10, pat pattern, m at level 100, k at level 200).

(** A loop that carries local variables [S] from one round to the next. *)
Fixpoint for_fold {A S} (l : list A) (body : S -> A -> M S) (s : S) : M S :=
  match l with
  | [] => ret s
  | x :: l' => let! s' := body s x in for_fold l' body s'
  end.

Definition get_script_run_ctx : M (option ScriptRunContext.t) :=
  gets World.ctx.

Definition get_page (l : loc) : M StreamlitPage.t :=
  gets (fun w => World.heap w l).

Definition update_page (l : loc) (f : StreamlitPage.t -> StreamlitPage.t)
  : M unit :=
  modify (fun w => World.set_heap (<[l := f (World.heap w l)]> (World.heap w)) w).

(** [ctx.enqueue(msg)] and [ctx.pages_manager.set_pages(p)] act on the
    context object of the thread. *)
Definition ctx_enqueue (msg : ForwardMsg) : M unit :=
  modify (fun w =>
    World.set_ctx (ScriptRunContext.enqueue msg <$> World.ctx w) w).

Definition ctx_set_pages (p : Dict.t PageHash PageInfo.t) : M unit :=
  modify (fun w =>
    World.set_ctx (ScriptRunContext.set_pages p <$> World.ctx w) w).

(** [self.dg._enqueue(name, proto)] *)
Definition dg_enqueue (name : string) (proto : Proto) : M unit :=
  modify (fun w => World.set_deltas (World.deltas w ++ [(name, proto)]) w).

(** ** What the two modules import

    Functions and classes of the library that [button.py] and
    [navigation.py] call but do not define.  They are parameters of the
    development: every theorem holds for whatever they compute. *)

(** A widget key, [Union[str, int]]. *)
Inductive Key : Type :=
| KeyStr (s : string)
| KeyInt (n : Z).

(** Callbacks and their arguments are opaque objects; [feedback] wraps
    the user's callback in a closure over the widget key. *)
Definition PyObject : Type := nat.

Inductive Callback : Type :=
| UserCallback (f : PyObject)
| FeedbackOnClick (key : option string) (on_click : Callback).

(** Keyword arguments handed to [compute_widget_id]. *)
Inductive KwArg : Type :=
| KStr (s : string)
| KOptStr (s : option string)
| KBool (b : bool)
| KBytesList (l : list string)
| KBoolList (l : list bool).

(** The serializer pair handed to [register_widget]. *)
Inductive Serde : Type :=
| SerdeButton
| SerdeOptions (s : ButtonGroupOptionsSerde.t)
| SerdeFeedback (s : ButtonGroupFeedbackSerde.t).

(** [register_widget(...).value] *)
Inductive WidgetValue : Type :=
| ValBool (b : bool)
| ValOptions (v : option (list string))
| ValScore (v : option Z).

Class Externals : Type := {
  (* streamlit.type_util *)
  to_key : option Key -> option string;
  (* streamlit.runtime.state.common *)
  compute_widget_id : string -> option string -> list (string * KwArg) -> string;
  save_for_app_testing : string -> WidgetValue -> M unit;
  (* streamlit.runtime.state *)
  register_widget :
    string -> Proto -> option string -> option Callback ->
    option PyObject -> option PyObject -> Serde ->
    option ScriptRunContext.t -> M WidgetValue;
  (* streamlit.elements.lib.policies *)
  check_fragment_path_policy : M unit;
  check_cache_replay_rules : M unit;
  check_callback_rules : option Callback -> M unit;
  check_session_state_rules : option (list bool) -> option string -> bool -> M unit;
  (* streamlit.runtime and streamlit.elements.form *)
  runtime_exists : World.t -> bool;
  is_in_form : World.t -> bool;
  current_form_id : World.t -> string;
  get_delta_path_str : World.t -> string;
  media_file_mgr_add :
    string -> string -> string -> option string -> M string;
  (* textwrap, os.path *)
  dedent : string -> string;
  realpath : string -> string;
  basename : string -> string;
  (* streamlit.string_util, streamlit.url_util, streamlit.file_util *)
  validate_icon_or_emoji : string -> result string;
  is_url : string -> bool;
  get_main_script_directory : string -> string;
  normalize_path_join : string -> string -> string;
  (* streamlit.navigation.page.StreamlitPage *)
  url_path : StreamlitPage.t -> string;
  calc_md5 : string -> PageHash;
  (* ctx.pages_manager *)
  get_page_script : World.t -> PageHash -> option PageInfo.t
}.

(** ** [navigation.py] *)

Section Navigation.

Context `{Externals}.

(** Modelled from the spec: the property [StreamlitPage._script_hash];
    the class [StreamlitPage] (streamlit/navigation/page.py) is not
    among the sources at hand.  [navigation] reports a repeated script
    hash as a repeated title (Multiple Pages specified with title ...;
    page titles should be unique), so the hash is taken to be a digest
    [calc_md5] of the page's title; nothing is assumed of the digest
    itself. *)
Definition _script_hash (p : StreamlitPage.t) : PageHash :=
  calc_md5 (StreamlitPage.title p).

Definition nav_dict : Type := Dict.t SectionHeader (list loc).

(** The argument [pages]: a list of pages or a dictionary of
    sections. *)
Inductive PagesArg : Type :=
| PageList (pages : list loc)
| PageSections (pages : nav_dict).

(** [{"": pages} if isinstance(pages, list) else pages] *)
Definition nav_sections_of (pages : PagesArg) : nav_dict :=
  match pages with
  | PageList pages => [("", pages)]
  | PageSections pages => pages
  end.

Definition pages_from_nav_sections (nav_sections : nav_dict) : list loc :=
  foldl (fun page_list pages =>
           foldl (fun page_list page => page_list ++ [page]) page_list pages)
        [] (Dict.values nav_sections).

Definition send_page_not_found : M unit :=
  ctx_enqueue (MsgPageNotFound "").

(** [nav_sections[section_header]] for a key the loop took from the
    dictionary itself. *)
Definition section_pages (nav_sections : nav_dict)
           (section_header : SectionHeader) : M (list loc) :=
  match Dict.get nav_sections section_header with
  | Some pages => ret pages
  | None => raise (KeyError section_header)
  end.

Definition multiple_default_msg : string :=
  "Multiple Pages specified with `default=True`. " +++
  "At most one Page can be set to default.".

Definition multiple_title_msg (title : string) : string :=
  "Multiple Pages specified with title " +++ title +++ ". " +++
  "Page titles should be unique. If not specified, " +++
  "title is inferred from the file path or callable name.".

Definition no_page_msg : string :=
  "`st.navigation` must be called with at least one `st.Page`.".

(** The local variables of the first nested loop. *)
Definition scan_state : Type :=
  (option loc * Dict.t PageHash PageInfo.t)%type.

(** One round of the inner loop (lines 114 to 141). *)
Definition scan_page (st : scan_state) (page : loc) : M scan_state :=
  let '(default_page, pagehash_to_pageinfo) := st in
  let! p := get_page page in
  let! default_page :=
    if StreamlitPage.default p then
      match default_page with
      | Some _ => raise (StreamlitAPIException multiple_default_msg)
      | None => ret (Some page)
      end
    else ret default_page in
  let script_path :=
    match StreamlitPage._page p with
    | Path s => s
    | Callable _ => ""
    end in
  let script_hash := _script_hash p in
  if Dict.mem script_hash pagehash_to_pageinfo then
    raise (StreamlitAPIException (multiple_title_msg (StreamlitPage.title p)))
  else
    ret (default_page,
         Dict.set pagehash_to_pageinfo script_hash
           (PageInfo.Build script_hash (StreamlitPage.title p)
              (StreamlitPage.icon p) script_path
              (replace_char " " "_" (StreamlitPage.title p)))).

Definition scan_sections (nav_sections : nav_dict) : M scan_state :=
  for_fold (Dict.keys nav_sections)
    (fun st section_header =>
       let! pages := section_pages nav_sections section_header in
       for_fold pages scan_page st)
    (None, []).

(** The second nested loop (lines 153 to 161): one [app_pages] entry
    per page. *)
Definition app_page_of (section_header : SectionHeader)
           (acc : list AppPage.t) (page : loc) : M (list AppPage.t) :=
  let! p := get_page page in
  ret (acc ++ [AppPage.Build (_script_hash p) (StreamlitPage.title p)
                 (StreamlitPage.icon p) (StreamlitPage.default p)
                 section_header
                 (replace_char " " "_" (StreamlitPage.title p))]).

Definition build_app_pages (nav_sections : nav_dict) : M (list AppPage.t) :=
  for_fold (Dict.keys nav_sections)
    (fun acc section_header =>
       let! pages := section_pages nav_sections section_header in
       for_fold pages (app_page_of section_header) acc)
    [].

(** Lines 143 to 145: without an explicit default the first page of the
    list becomes the default. *)
Definition choose_default (default_page : option loc) (page_list : list loc)
  : M loc :=
  match default_page with
  | Some page => ret page
  | None =>
      let! default_page := lift (getitem page_list 0) in
      let! _ := update_page default_page (StreamlitPage.set_default true) in
      ret default_page
  end.

(** Lines 169 to 176. *)
Definition matching_page (found_page : option PageInfo.t)
           (page_list : list loc) : M (option loc) :=
  match found_page with
  | Some found_page =>
      let found_page_script_hash := PageInfo.page_script_hash found_page in
      let! matching_pages :=
        gets (fun w =>
                filter (fun p => _script_hash (World.heap w p)
                                 = found_page_script_hash) page_list) in
      ret (head matching_pages)
  | None => ret None
  end.

Definition navigation (pages : PagesArg) (position : string)
  : M (option loc) :=
  let! ctx := get_script_run_ctx in
  match ctx with
  | None => ret None
  | Some _ =>
      let nav_sections := nav_sections_of pages in
      let page_list := pages_from_nav_sections nav_sections in
      match page_list with
      | [] => raise (StreamlitAPIException no_page_msg)
      | _ :: _ =>
          let! '(default_page, pagehash_to_pageinfo) :=
            scan_sections nav_sections in
          let! default_page := choose_default default_page page_list in
          let msg_position :=
            if decide (position = "hidden") then HIDDEN else SIDEBAR in
          let! app_pages := build_app_pages nav_sections in
          let msg :=
            NavigationProto.Build msg_position (Dict.keys nav_sections)
                                  app_pages "" in
          let! _ := ctx_set_pages pagehash_to_pageinfo in
          let! d := get_page default_page in
          let! found_page :=
            gets (fun w => get_page_script w (_script_hash d)) in
          let! page_to_return := matching_page found_page page_list in
          let! page_to_return :=
            match page_to_return with
            | Some page => ret page
            | None => let! _ := send_page_not_found in ret default_page
            end in
          let! _ := update_page page_to_return
                      (StreamlitPage.set_can_be_called true) in
          let! r := get_page page_to_return in
          let msg := NavigationProto.set_page_script_hash (_script_hash r) msg in
          let! _ := ctx_enqueue (MsgNavigation msg) in
          ret (Some page_to_return)
      end
  end.

End Navigation.

(** ** [button.py]: the widget commands *)

(** [DownloadButtonDataType], by the run-time class of the value and
    with what reading it yields. *)
Inductive DownloadData : Type :=
| DataStr (s : string)
| DataTextIOWrapper (content : string)
| DataBytes (b : string)
| DataBytesIO (b : string)
| DataBufferedReader (b : string)
| DataRawIOBase (b : option string)
| DataOther (type_name : string).

(** The argument [options] of [_button_group]: [str | list[str]]. *)
Inductive OptionsArg : Type :=
| OptionStr (o : string)
| OptionList (l : list string).

(** The argument [page] of [page_link]: [str | StreamlitPage]. *)
Inductive PageArg : Type :=
| PageStr (s : string)
| PageObj (p : loc).

Definition dquote : string := String (ascii_of_nat 34) EmptyString.
Definition newline : string := String (ascii_of_nat 10) EmptyString.

Definition FORM_DOCS_INFO : string :=
  newline +++ newline +++ "For more information, refer to the" +++ newline +++
  "[documentation for forms](https://docs.streamlit.io/develop/api-reference/execution-flow/st.form)."
  +++ newline.

(** [x or d] for an optional string: [None] and the empty string are
    falsy. *)
Definition str_or (x : option string) (d : string) : string :=
  match x with
  | Some s => if decide (s = "") then d else s
  | None => d
  end.

Section Button.

Context `{Externals}.

Definition button_type_msg (command type : string) : string :=
  "The type argument to " +++ command +++ " must be " +++
  dquote +++ "primary" +++ dquote +++ " or " +++
  dquote +++ "secondary" +++ dquote +++ ". " +++ newline +++
  "The argument passed was " +++ dquote +++ type +++ dquote +++ ".".

(** [type not in ["primary", "secondary"]] *)
Definition bad_type (type : string) : bool :=
  negb (bool_decide (type ∈ ["primary"; "secondary"])).

Definition page_of (ctx : option ScriptRunContext.t) : option string :=
  ScriptRunContext.active_script_hash <$> ctx.

Definition help_of (help : option string) : string :=
  match help with
  | Some help => dedent help
  | None => ""
  end.

Definition _button (label : string) (key : option Key)
           (help : option string) (is_form_submitter : bool)
           (on_click : option Callback) (args kwargs : option PyObject)
           (type : string) (disabled use_container_width : bool)
           (ctx : option ScriptRunContext.t) : M WidgetValue :=
  let key := to_key key in
  let! _ := check_fragment_path_policy in
  let! _ := if is_form_submitter then ret tt
            else check_callback_rules on_click in
  let! _ := check_cache_replay_rules in
  let! _ := check_session_state_rules None key false in
  let id :=
    compute_widget_id "button" key
      [("label", KStr label); ("key", KOptStr key); ("help", KOptStr help);
       ("is_form_submitter", KBool is_form_submitter); ("type", KStr type);
       ("use_container_width", KBool use_container_width);
       ("page", KOptStr (page_of ctx))] in
  let! running := gets runtime_exists in
  let! _ :=
    if running then
      let! in_form := gets is_in_form in
      if in_form && negb is_form_submitter then
        raise (StreamlitAPIException
                 ("`st.button()` can't be used in an `st.form()`."
                  +++ FORM_DOCS_INFO))
      else if negb in_form && is_form_submitter then
        raise (StreamlitAPIException
                 ("`st.form_submit_button()` must be used inside an `st.form()`."
                  +++ FORM_DOCS_INFO))
      else ret tt
    else ret tt in
  let! form_id := gets current_form_id in
  let button_proto :=
    ButtonProto.Build id label false is_form_submitter form_id type
                      use_container_width disabled (help_of help) in
  let! button_state :=
    register_widget "button" (PButton button_proto) key on_click args kwargs
                    SerdeButton ctx in
  let! _ := match ctx with
            | Some _ => save_for_app_testing id button_state
            | None => ret tt
            end in
  let! _ := dg_enqueue "button" (PButton button_proto) in
  ret button_state.

Definition button (label : string) (key : option Key) (help : option string)
           (on_click : option Callback) (args kwargs : option PyObject)
           (type : string) (disabled use_container_width : bool)
  : M WidgetValue :=
  let key := to_key key in
  let! ctx := get_script_run_ctx in
  if bad_type type then
    raise (StreamlitAPIException (button_type_msg "st.button" type))
  else
    _button label (KeyStr <$> key) help false on_click args kwargs type
            disabled use_container_width ctx.

Definition marshall_file (coordinates : string) (data : DownloadData)
           (mimetype : option string) (file_name : option string) : M unit :=
  let! '(data_as_bytes, mimetype) :=
    match data with
    | DataStr s => ret (s, str_or mimetype "text/plain")
    | DataTextIOWrapper string_data =>
        ret (string_data, str_or mimetype "text/plain")
    | DataBytes b => ret (b, str_or mimetype "application/octet-stream")
    | DataBytesIO b => ret (b, str_or mimetype "application/octet-stream")
    | DataBufferedReader b =>
        ret (b, str_or mimetype "application/octet-stream")
    | DataRawIOBase b =>
        ret (str_or b "", str_or mimetype "application/octet-stream")
    | DataOther type_name =>
        raise (RuntimeError ("Invalid binary data format: " +++ type_name))
    end in
  let! running := gets runtime_exists in
  if running then
    let! _ := media_file_mgr_add data_as_bytes mimetype coordinates file_name in
    ret tt
  else ret tt.

Definition _download_button (label : string) (data : DownloadData)
           (file_name mime : option string) (key : option Key)
           (help : option string) (on_click : option Callback)
           (args kwargs : option PyObject) (type : string)
           (disabled use_container_width : bool)
           (ctx : option ScriptRunContext.t) : M WidgetValue :=
  let key := to_key key in
  let! _ := check_cache_replay_rules in
  let! _ := check_session_state_rules None key false in
  let! _ := check_callback_rules on_click in
  let id :=
    compute_widget_id "download_button" key
      [("label", KStr label); ("file_name", KOptStr file_name);
       ("mime", KOptStr mime); ("key", KOptStr key); ("help", KOptStr help);
       ("type", KStr type);
       ("use_container_width", KBool use_container_width);
       ("page", KOptStr (page_of ctx))] in
  let! in_form := gets is_in_form in
  if in_form then
    raise (StreamlitAPIException
             ("`st.download_button()` can't be used in an `st.form()`."
              +++ FORM_DOCS_INFO))
  else
    let! coordinates := gets get_delta_path_str in
    let! _ := marshall_file coordinates data mime file_name in
    let download_button_proto :=
      DownloadButtonProto.Build id use_container_width label false type
                                disabled (help_of help) in
    let! button_state :=
      register_widget "download_button" (PDownloadButton download_button_proto)
                      key on_click args kwargs SerdeButton ctx in
    let! _ := dg_enqueue "download_button"
                         (PDownloadButton download_button_proto) in
    ret button_state.

Definition download_button (label : string) (data : DownloadData)
           (file_name mime : option string) (key : option Key)
           (help : option string) (on_click : option Callback)
           (args kwargs : option PyObject) (type : string)
           (disabled use_container_width : bool) : M WidgetValue :=
  let! ctx := get_script_run_ctx in
  if bad_type type then
    raise (StreamlitAPIException (button_type_msg "st.button" type))
  else
    _download_button label data file_name mime key help on_click args kwargs
                     type disabled use_container_width ctx.

Definition _link_button (label url : string) (help : option string)
           (type : string) (disabled use_container_width : bool) : M unit :=
  let link_button_proto :=
    LinkButtonProto.Build label url type use_container_width disabled
                          (help_of help) in
  dg_enqueue "link_button" (PLinkButton link_button_proto).

Definition link_button (label url : string) (help : option string)
           (type : string) (disabled use_container_width : bool) : M unit :=
  if bad_type type then
    raise (StreamlitAPIException (button_type_msg "st.link_button" type))
  else _link_button label url help type disabled use_container_width.

End Button.

Section PageLink.

Context `{Externals}.

Definition label_required_msg : string :=
  "The label param is required for external links used with st.page_link - please provide a label.".

Definition page_not_found_msg (page main_script_directory : string) : string :=
  "Could not find page: `" +++ page +++
  "`. Must be the file path relative to the main script, from the directory: `"
  +++ basename main_script_directory +++
  "`. Only the main app file and files in the `pages/` directory are supported.".

(** The loop of lines 1002 to 1010: the first page of the table whose
    script path is the requested one fills the message, then [break]. *)
Fixpoint find_app_page (label : option string) (requested_page : string)
         (all_app_pages : list PageInfo.t) (proto : PageLinkProto.t)
  : PageLinkProto.t :=
  match all_app_pages with
  | [] => proto
  | page_data :: rest =>
      let full_path := PageInfo.script_path page_data in
      let page_name := PageInfo.page_name page_data in
      if decide (requested_page = full_path) then
        let proto :=
          match label with
          | None => PageLinkProto.set_label (replace_char "_" " " page_name) proto
          | Some _ => proto
          end in
        let proto :=
          PageLinkProto.set_page_script_hash
            (PageInfo.page_script_hash page_data) proto in
        PageLinkProto.set_page page_name proto
      else find_app_page label requested_page rest proto
  end.

Definition _page_link (page : PageArg) (label icon help : option string)
           (disabled : bool) (use_container_width : option bool) : M unit :=
  let page_link_proto := PageLinkProto.set_disabled disabled PageLinkProto.empty in
  let page_link_proto :=
    match label with
    | Some label => PageLinkProto.set_label label page_link_proto
    | None => page_link_proto
    end in
  let! page_link_proto :=
    match icon with
    | Some icon =>
        let! icon := lift (validate_icon_or_emoji icon) in
        ret (PageLinkProto.set_icon icon page_link_proto)
    | None => ret page_link_proto
    end in
  let page_link_proto :=
    match help with
    | Some help => PageLinkProto.set_help (dedent help) page_link_proto
    | None => page_link_proto
    end in
  let page_link_proto :=
    match use_container_width with
    | Some b => PageLinkProto.set_use_container_width b page_link_proto
    | None => page_link_proto
    end in
  match page with
  | PageObj page =>
      let! p := get_page page in
      let page_link_proto :=
        PageLinkProto.set_page_script_hash (_script_hash p) page_link_proto in
      let page_link_proto :=
        PageLinkProto.set_page (url_path p) page_link_proto in
      let page_link_proto :=
        match label with
        | None => PageLinkProto.set_label (StreamlitPage.title p) page_link_proto
        | Some _ => page_link_proto
        end in
      if decide (PageLinkProto.page_script_hash page_link_proto = "") then
        (* the message refers to [main_script_directory], which this
           branch never binds *)
        raise (UnboundLocalError "main_script_directory")
      else dg_enqueue "page_link" (PPageLink page_link_proto)
  | PageStr page =>
      if is_url page then
        (* Handle external links *)
        if bool_decide (label = None) || bool_decide (label = Some "") then
          raise (StreamlitAPIException label_required_msg)
        else
          let page_link_proto := PageLinkProto.set_page page page_link_proto in
          let page_link_proto :=
            PageLinkProto.set_external true page_link_proto in
          dg_enqueue "page_link" (PPageLink page_link_proto)
      else
        let! ctx := get_script_run_ctx in
        let ctx_main_script :=
          match ctx with
          | Some ctx => ScriptRunContext.main_script_path ctx
          | None => ""
          end in
        let all_app_pages :=
          match ctx with
          | Some ctx => ScriptRunContext.pages ctx
          | None => []
          end in
        let main_script_directory :=
          get_main_script_directory ctx_main_script in
        let requested_page :=
          realpath (normalize_path_join main_script_directory page) in
        let page_link_proto :=
          find_app_page label requested_page (Dict.values all_app_pages)
                        page_link_proto in
        if decide (PageLinkProto.page_script_hash page_link_proto = "") then
          raise (StreamlitAPIException
                   (page_not_found_msg page main_script_directory))
        else dg_enqueue "page_link" (PPageLink page_link_proto)
  end.

Definition page_link (page : PageArg) (label icon help : option string)
           (disabled : bool) (use_container_width : option bool) : M unit :=
  _page_link page label icon help disabled use_container_width.

End PageLink.

Section ButtonGroup.

Context `{Externals}.

(** [[index for index, default_val in enumerate(default)
      if default_val is True]] *)
Fixpoint default_indices (index : Z) (default : list bool) : list Z :=
  match default with
  | [] => []
  | default_val :: rest =>
      if default_val then index :: default_indices (index + 1) rest
      else default_indices (index + 1) rest
  end.

Definition click_mode_of (click_mode : string) : ClickMode :=
  if decide (click_mode = "button") then BUTTON
  else if decide (click_mode = "radio") then RADIO
  else CHECKBOX.

(** The keyword arguments [_button_group] hands to
    [compute_widget_id] (lines 803 to 811); [str.encode] leaves a
    string of bytes as it is. *)
Definition button_group_id_kwargs (key : option string)
           (formatted_options : list string) (default : list bool)
           (use_container_width : bool)
           (ctx : option ScriptRunContext.t) : list (string * KwArg) :=
  [("key", KOptStr key); ("options", KBytesList formatted_options);
   ("default", KBoolList default);
   ("use_container_width", KBool use_container_width);
   ("page", KOptStr (page_of ctx))].

Definition _button_group (options : OptionsArg) (key : option Key)
           (default : option (list bool)) (click_mode : string)
           (disabled use_container_width : bool)
           (format_func : string -> string) (on_click : option Callback)
           (args kwargs : option PyObject) (serde : Serde) : M WidgetValue :=
  let default := match default with Some d => d | None => [] end in
  let key := to_key key in
  let! _ := check_fragment_path_policy in
  let! _ := check_cache_replay_rules in
  let! _ := check_callback_rules on_click in
  let! _ := check_session_state_rules (Some default) key true in
  let widget_name := "button_group" in
  let! ctx := get_script_run_ctx in
  let options :=
    match options with
    | OptionStr o => [o]
    | OptionList l => l
    end in
  let formatted_options := map format_func options in
  let widget_id :=
    compute_widget_id widget_name key
      (button_group_id_kwargs key formatted_options default
                              use_container_width ctx) in
  let default_values := default_indices 0 default in
  let button_group_proto :=
    ButtonGroupProto.Build widget_id formatted_options default_values
                           disabled (click_mode_of click_mode)
                           use_container_width in
  let! button_group_state :=
    register_widget widget_name (PButtonGroup button_group_proto) None
                    on_click args kwargs serde ctx in
  let! _ := dg_enqueue widget_name (PButtonGroup button_group_proto) in
  ret button_group_state.

Definition button_group (options : list string) (key : option Key)
           (default : option (list bool)) (click_mode : string)
           (disabled use_container_width : bool)
           (format_func : string -> string) (on_click : option Callback)
           (args kwargs : option PyObject) : M WidgetValue :=
  _button_group (OptionList options) key default click_mode disabled
                use_container_width format_func on_click args kwargs
                (SerdeOptions (ButtonGroupOptionsSerde.Build options [])).

Definition format_func_thumbs (option : string) : string :=
  if decide (option = "thumbs_up") then ":material/thumb_up:"
  else if decide (option = "thumbs_down") then ":material/thumb_down:"
  else "".

Definition format_func_smiles (option : string) : string :=
  if decide (option = "sad") then ":material/sentiment_sad:"
  else if decide (option = "disappointed") then
    ":material/sentiment_dissatisfied:"
  else if decide (option = "neutral") then ":material/sentiment_neutral:"
  else if decide (option = "happy") then ":material/sentiment_satisfied:"
  else if decide (option = "very_happy") then
    ":material/sentiment_very_satisfied:"
  else "".

Definition feedback_options_msg (options : string) : string :=
  "The options argument to st.feedback must be 'thumbs' or 'smiles'. " +++
  "The argument passed was '" +++ options +++ "'.".

(** Lines 708 to 719: the formatter and the score table chosen by
    [options]. *)
Definition feedback_mapping (options : string)
  : result ((string -> string) * option (list Z)) :=
  if decide (options = "thumbs") then
    (* thumbs_up is 1, thumbs_down is 0; thumbs_up is shown first, so
       its index is 0 *)
    Return (format_func_thumbs, Some [1; 0])
  else if decide (options = "smiles") then Return (format_func_smiles, None)
  else Raise (StreamlitAPIException (feedback_options_msg options)).

Definition feedback (options : string) (key : option string)
           (disabled : bool) (on_click : option Callback)
           (args kwargs : option PyObject) : M WidgetValue :=
  let! '(format_func, index_to_score_mapping) :=
    lift (feedback_mapping options) in
  let actual_options :=
    if decide (options = "thumbs") then ["thumbs_up"; "thumbs_down"]
    else ["sad"; "disappointed"; "neutral"; "happy"; "very_happy"] in
  _button_group (OptionList actual_options) (KeyStr <$> key) None "radio"
                disabled false format_func (FeedbackOnClick key <$> on_click)
                args kwargs
                (SerdeFeedback
                   (ButtonGroupFeedbackSerde.Build index_to_score_mapping)).

End ButtonGroup.

(** ** A sample environment

    Simple stand-ins for the imported functions, on which the commands
    can be run on concrete inputs.  The theorems below do not depend on
    it: they hold for every environment. *)

Definition sample_get_page_script (w : World.t) (fallback_page_hash : PageHash)
  : option PageInfo.t :=
  match World.ctx w with
  | Some c => Dict.get (ScriptRunContext.pages c) fallback_page_hash
  | None => None
  end.

Definition sample_externals : Externals := {|
  to_key := fun key =>
    match key with
    | Some (KeyStr s) => Some s
    | Some (KeyInt _) => Some "int"
    | None => None
    end;
  compute_widget_id := fun element_type user_key kwargs => element_type;
  save_for_app_testing := fun _ _ => ret tt;
  register_widget := fun _ _ _ _ _ _ _ _ => ret (ValBool false);
  check_fragment_path_policy := ret tt;
  check_cache_replay_rules := ret tt;
  check_callback_rules := fun _ => ret tt;
  check_session_state_rules := fun _ _ _ => ret tt;
  runtime_exists := fun _ => true;
  is_in_form := fun _ => false;
  current_form_id := fun _ => "";
  get_delta_path_str := fun _ => "";
  media_file_mgr_add := fun _ _ _ _ => ret "";
  dedent := fun s => s;
  realpath := fun s => s;
  basename := fun s => s;
  validate_icon_or_emoji := fun s => Return s;
  is_url := fun s => String.prefix "http://" s || String.prefix "https://" s;
  get_main_script_directory := fun s => s;
  normalize_path_join := fun a b => a +++ "/" +++ b;
  url_path := fun p => replace_char " " "_" (StreamlitPage.title p);
  calc_md5 := fun s => s;
  get_page_script := sample_get_page_script
|}.

(** Two page objects, at addresses 0 and 1, and a store holding them. *)
Definition sample_page (title : string) (default : bool) : StreamlitPage.t :=
  StreamlitPage.Build title "" default (Callable title) false.

Definition sample_heap (p0 p1 : StreamlitPage.t) : loc -> StreamlitPage.t :=
  <[0%nat := p0]> (fun _ => p1).

Definition sample_ctx : ScriptRunContext.t :=
  ScriptRunContext.Build "main" "app.py" [] [].

Definition sample_world (ctx : option ScriptRunContext.t)
           (p0 p1 : StreamlitPage.t) : World.t :=
  World.Build ctx (sample_heap p0 p1) [].

(** ** Vocabulary of the statements *)

(** The pages of a dictionary of sections, each with its section
    header, in the order the loops visit them. *)
Fixpoint section_items (d : Dict.t SectionHeader (list loc))
  : list (SectionHeader * loc) :=
  match d with
  | [] => []
  | (section_header, pages) :: d' =>
      map (pair section_header) pages ++ section_items d'
  end.

(** The argument [pages] holds no page at all: an empty list, or a
    dictionary all of whose section lists are empty. *)
Definition no_pages (pages : PagesArg) : Prop :=
  match pages with
  | PageList l => l = []
  | PageSections d => forall section_header l, (section_header, l) ∈ d -> l = []
  end.

(** The icon of a page link is absent or accepted by
    [validate_icon_or_emoji]. *)
Definition icon_ok `{Externals} (icon : option string) : Prop :=
  match icon with
  | Some icon => exists icon', validate_icon_or_emoji icon = Return icon'
  | None => True
  end.

(** The [app_pages] entry that the second loop of [navigation] writes
    for a page. *)
Definition app_page_entry `{Externals} (heap : loc -> StreamlitPage.t)
           (item : SectionHeader * loc) : AppPage.t :=
  let p := heap item.2 in
  AppPage.Build (_script_hash p) (StreamlitPage.title p) (StreamlitPage.icon p)
                (StreamlitPage.default p) item.1
                (replace_char " " "_" (StreamlitPage.title p)).

(** The [PageInfo] entry that the first loop of [navigation] writes for
    a page. *)
Definition page_info_entry `{Externals} (p : StreamlitPage.t) : PageInfo.t :=
  PageInfo.Build (_script_hash p) (StreamlitPage.title p) (StreamlitPage.icon p)
                 (match StreamlitPage._page p with
                  | Path s => s
                  | Callable _ => ""
                  end)
                 (replace_char " " "_" (StreamlitPage.title p)).

(** The sample environment with the answers of the runtime, of the form
    and of the pages manager chosen freely. *)
Definition sample_externals_with (running in_form : bool)
           (finder : World.t -> PageHash -> option PageInfo.t) : Externals := {|
  to_key := @to_key sample_externals;
  compute_widget_id := @compute_widget_id sample_externals;
  save_for_app_testing := @save_for_app_testing sample_externals;
  register_widget := @register_widget sample_externals;
  check_fragment_path_policy := @check_fragment_path_policy sample_externals;
  check_cache_replay_rules := @check_cache_replay_rules sample_externals;
  check_callback_rules := @check_callback_rules sample_externals;
  check_session_state_rules := @check_session_state_rules sample_externals;
  runtime_exists := fun _ => running;
  is_in_form := fun _ => in_form;
  current_form_id := @current_form_id sample_externals;
  get_delta_path_str := @get_delta_path_str sample_externals;
  media_file_mgr_add := @media_file_mgr_add sample_externals;
  dedent := @dedent sample_externals;
  realpath := @realpath sample_externals;
  basename := @basename sample_externals;
  validate_icon_or_emoji := @validate_icon_or_emoji sample_externals;
  is_url := @is_url sample_externals;
  get_main_script_directory := @get_main_script_directory sample_externals;
  normalize_path_join := @normalize_path_join sample_externals;
  url_path := @url_path sample_externals;
  calc_md5 := @calc_md5 sample_externals;
  get_page_script := finder
|}.

(** The page table that the first loop of [navigation] builds for a
    list of pages: one entry per page, keyed by its script hash, in the
    order of the list. *)
Definition nav_page_table `{Externals} (heap : loc -> StreamlitPage.t)
           (page_list : list loc) : Dict.t PageHash PageInfo.t :=
  map (fun page => (_script_hash (heap page), page_info_entry (heap page)))
      page_list.

(** The characters of a string. *)
Fixpoint chars (s : string) : list ascii :=
  match s with
  | EmptyString => []
  | String c s' => c :: chars s'
  end.

(** What [navigation] returns, and the store it leaves, once the first
    loop has accepted the pages with the explicit default
    [default_page], if there is one, and the page table [table]; [c] is
    the script-run context and [first] the first page of the list. *)
Definition nav_outcome `{Externals} (pages : PagesArg) (position : string)
           (w : World.t) (c : ScriptRunContext.t) (first : loc)
           (default_page : option loc) (table : Dict.t PageHash PageInfo.t)
  : loc * World.t :=
  let d := nav_sections_of pages in
  let page_list := pages_from_nav_sections d in
  let dflt := default first default_page in
  let heap1 :=
    match default_page with
    | Some _ => World.heap w
    | None =>
        <[first := StreamlitPage.set_default true (World.heap w first)]>
          (World.heap w)
    end in
  let c2 := ScriptRunContext.set_pages table c in
  let w2 := World.Build (Some c2) heap1 (World.deltas w) in
  let matching :=
    match get_page_script w2 (_script_hash (heap1 dflt)) with
    | Some found =>
        head (filter (fun p => _script_hash (heap1 p)
                               = PageInfo.page_script_hash found) page_list)
    | None => None
    end in
  let r := default dflt matching in
  let c3 :=
    match matching with
    | Some _ => c2
    | None => ScriptRunContext.enqueue (MsgPageNotFound "") c2
    end in
  let heap4 := <[r := StreamlitPage.set_can_be_called true (heap1 r)]> heap1 in
  let nav :=
    NavigationProto.Build
      (if decide (position = "hidden") then HIDDEN else SIDEBAR)
      (Dict.keys d) (map (app_page_entry heap1) (section_items d))
      (_script_hash (heap4 r)) in
  (r, World.Build (Some (ScriptRunContext.enqueue (MsgNavigation nav) c3))
                  heap4 (World.deltas w)).

(** A sample call of [navigation]: two sections of one page each. *)
Definition sample_sections : PagesArg :=
  PageSections [("Main", [1%nat]); ("More", [0%nat])].

Definition sample_nav_world (default0 default1 : bool) : World.t :=
  sample_world (Some sample_ctx) (sample_page "Home page" default0)
               (sample_page "About" default1).




(** A call that [navigation] refuses: two pages titled "Home". *)
Definition sample_clash_world : World.t :=
  sample_world (Some sample_ctx) (sample_page "Home" false)
               (sample_page "Home" false).

(** The sample environment inside a form. *)
Definition sample_externals_in_form (running : bool) : Externals :=
  sample_externals_with running true sample_get_page_script.

(** The page table that [_page_link] searches: that of the script-run
    context, or the empty one without a context. *)
Definition all_app_pages (w : World.t) : Dict.t PageHash PageInfo.t :=
  match World.ctx w with
  | Some ctx => ScriptRunContext.pages ctx
  | None => []
  end.

(** The path that [_page_link] looks up for a page given as a string. *)
Definition requested_page `{Externals} (w : World.t) (page : string) : string :=
  let ctx_main_script :=
    match World.ctx w with
    | Some ctx => ScriptRunContext.main_script_path ctx
    | None => ""
    end in
  realpath (normalize_path_join (get_main_script_directory ctx_main_script) page).


(** The sample environment with an icon check that refuses: only
    Material icon names pass, any other icon raises the error of
    [validate_icon_or_emoji]. *)
Definition sample_icon_msg (icon : string) : string :=
  "The value " +++ dquote +++ icon +++ dquote +++
  " is not a valid emoji. Shortcodes are not allowed, please use a single character instead.".

Definition sample_validate_icon (icon : string) : result string :=
  if String.prefix ":material/" icon then Return icon
  else Raise (StreamlitAPIException (sample_icon_msg icon)).

Definition sample_externals_strict_icons : Externals := {|
  to_key := @to_key sample_externals;
  compute_widget_id := @compute_widget_id sample_externals;
  save_for_app_testing := @save_for_app_testing sample_externals;
  register_widget := @register_widget sample_externals;
  check_fragment_path_policy := @check_fragment_path_policy sample_externals;
  check_cache_replay_rules := @check_cache_replay_rules sample_externals;
  check_callback_rules := @check_callback_rules sample_externals;
  check_session_state_rules := @check_session_state_rules sample_externals;
  runtime_exists := @runtime_exists sample_externals;
  is_in_form := @is_in_form sample_externals;
  current_form_id := @current_form_id sample_externals;
  get_delta_path_str := @get_delta_path_str sample_externals;
  media_file_mgr_add := @media_file_mgr_add sample_externals;
  dedent := @dedent sample_externals;
  realpath := @realpath sample_externals;
  basename := @basename sample_externals;
  validate_icon_or_emoji := sample_validate_icon;
  is_url := @is_url sample_externals;
  get_main_script_directory := @get_main_script_directory sample_externals;
  normalize_path_join := @normalize_path_join sample_externals;
  url_path := @url_path sample_externals;
  calc_md5 := @calc_md5 sample_externals;
  get_page_script := @get_page_script sample_externals
|}.

(** * Properties *)

(** ** Serializers *)

Arguments getitem : simpl never.
Arguments index : simpl never.

(** Two comprehensions that undo each other element by element undo
    each other on the whole list. *)
Lemma comprehension_roundtrip {A B} (f : A -> result B) (g : B -> result A)
      (l : list A) :
  (forall x, x ∈ l -> exists y, f x = Return y /\ g y = Return x) ->
  bind (comprehension f l) (comprehension g) = Return l.
Proof.
  induction l as [|x l IH]; intros Hl; [done|].
  destruct (Hl x) as (y & Hf & Hg); [left|].
  assert (IH' : bind (comprehension f l) (comprehension g) = Return l).
  { apply IH. intros z Hz. apply Hl. by right. }
  simpl. rewrite Hf. simpl.
  destruct (comprehension f l) as [ys|e]; simpl in *; [|done].
  rewrite Hg. simpl. by rewrite IH'.
Qed.

Section SerdeFacts.

Context {A : Type} `{EqDecision A}.

Lemma index_from_elem (l : list A) (v : A) (i : nat) :
  v ∈ l -> exists j, index_from l v i = Some (i + j)%nat /\ l !! j = Some v.
Proof.
  revert i. induction l as [|x l IH]; intros i Hin.
  - by apply elem_of_nil in Hin.
  - simpl. destruct (decide (x = v)) as [->|Hne].
    + exists 0%nat. split; [f_equal; lia | done].
    + apply elem_of_cons in Hin as [->|Hin]; [done|].
      destruct (IH (S i) Hin) as (j & Hj & Hl).
      exists (S j). split; [rewrite Hj; f_equal; lia | done].
Qed.

Lemma index_from_NoDup (l : list A) (v : A) (i j : nat) :
  NoDup l -> l !! j = Some v -> index_from l v i = Some (i + j)%nat.
Proof.
  revert i j. induction l as [|x l IH]; intros i j Hnd Hj; [done|].
  pose proof (NoDup_cons_1_1 _ _ Hnd) as Hx.
  apply NoDup_cons_1_2 in Hnd. simpl.
  destruct j as [|j]; simpl in Hj.
  - injection Hj as ->. rewrite decide_True by done. f_equal; lia.
  - destruct (decide (x = v)) as [->|Hne].
    + exfalso. apply Hx. by apply list_elem_of_lookup_2 in Hj.
    + rewrite (IH (S i) j Hnd Hj). f_equal; lia.
Qed.

Lemma getitem_of_nat {B} (l : list B) (j : nat) (x : B) :
  l !! j = Some x -> getitem l (Z.of_nat j) = Return x.
Proof.
  intros Hj. pose proof (lookup_lt_Some _ _ _ Hj) as Hlt.
  unfold getitem.
  destruct (Z.ltb_spec (Z.of_nat j) 0) as [?|_]; [lia|].
  destruct (Z.leb_spec 0 (Z.of_nat j)) as [_|?]; [|lia].
  destruct (Z.ltb_spec (Z.of_nat j) (Z.of_nat (length l))) as [_|?]; [|lia].
  simpl. by rewrite Nat2Z.id, Hj.
Qed.

Lemma index_getitem (l : list A) (v : A) :
  v ∈ l -> exists i, index l v = Return i /\ getitem l i = Return v.
Proof.
  intros Hin. destruct (index_from_elem l v 0 Hin) as (j & Hj & Hl).
  exists (Z.of_nat j). unfold index. rewrite Hj. simpl.
  split; [done | by apply getitem_of_nat].
Qed.

Lemma getitem_index (l : list A) (i : Z) :
  NoDup l -> 0 <= i < Z.of_nat (length l) ->
  exists v, getitem l i = Return v /\ index l v = Return i.
Proof.
  intros Hnd Hi.
  destruct (lookup_lt_is_Some_2 l (Z.to_nat i)) as [v Hv]; [lia|].
  exists v. split.
  - rewrite <- (Z2Nat.id i) by lia. by apply getitem_of_nat.
  - unfold index. rewrite (index_from_NoDup l v 0 (Z.to_nat i) Hnd Hv).
    simpl. f_equal. lia.
Qed.

End SerdeFacts.

(** C1. For an option list without duplicates, a list of selected values
    drawn from it survives [serialize] followed by [deserialize], and a
    list of indices, each within [0 .. len(options) - 1], survives
    [deserialize] followed by [serialize]. *)
Theorem options_serde_roundtrip
        (self : ButtonGroupOptionsSerde.t)
        (value : list string) (ui_value : list Z) :
  NoDup (ButtonGroupOptionsSerde.options self) ->
  (forall v, v ∈ value -> v ∈ ButtonGroupOptionsSerde.options self) ->
  (forall i, i ∈ ui_value ->
     0 <= i < Z.of_nat (length (ButtonGroupOptionsSerde.options self))) ->
  bind (ButtonGroupOptionsSerde.serialize self (Some value))
       (fun ui => ButtonGroupOptionsSerde.deserialize self (Some ui) "")
  = Return value
  /\
  bind (ButtonGroupOptionsSerde.deserialize self (Some ui_value) "")
       (fun v => ButtonGroupOptionsSerde.serialize self (Some v))
  = Return ui_value.
Proof.
  intros Hnd Hvalue Hui. destruct self as [options default_value].
  unfold ButtonGroupOptionsSerde.serialize,
    ButtonGroupOptionsSerde.deserialize. simpl in *. split.
  - apply comprehension_roundtrip. intros v Hv.
    by apply index_getitem, Hvalue.
  - apply comprehension_roundtrip. intros i Hi.
    by apply getitem_index, Hui.
Qed.

Lemma options_serde_roundtrip_witness :
  let self := ButtonGroupOptionsSerde.Build ["red"; "green"; "blue"] [] in
  bind (ButtonGroupOptionsSerde.serialize self (Some ["blue"; "red"]))
       (fun ui => ButtonGroupOptionsSerde.deserialize self (Some ui) "")
  = Return ["blue"; "red"]
  /\
  bind (ButtonGroupOptionsSerde.deserialize self (Some [1; 2]) "")
       (fun v => ButtonGroupOptionsSerde.serialize self (Some v))
  = Return [1; 2].
Proof.
  intros self.
  apply (options_serde_roundtrip self ["blue"; "red"] [1; 2]).
  - apply (bool_decide_unpack _). vm_compute. exact I.
  - intros v Hv. simpl.
    apply list_elem_of_In in Hv. apply list_elem_of_In. simpl in *.
    intuition.
  - intros i Hi. apply list_elem_of_In in Hi. simpl in *.
    intuition lia.
Defined.

(** A subscript below zero is read from the end of the list, so it does
    not come back from [serialize] as it went in. *)
Example options_serde_negative_index :
  let self := ButtonGroupOptionsSerde.Build ["red"; "green"; "blue"] [] in
  bind (ButtonGroupOptionsSerde.deserialize self (Some [-1]) "")
       (fun v => ButtonGroupOptionsSerde.serialize self (Some v))
  = Return [2].
Proof. reflexivity. Qed.

(** Without a client value the default indices are used. *)
Example options_serde_default :
  ButtonGroupOptionsSerde.deserialize
    (ButtonGroupOptionsSerde.Build ["red"; "green"; "blue"] [1]) None ""
  = Return ["green"].
Proof. reflexivity. Qed.

(** C3. A call of [feedback] with [options="thumbs"] runs the policy
    checks and then registers the widget with the feedback serializer
    whose score table is [[1, 0]], over the two options shown as thumb up
    and thumb down, in radio mode; that serializer's [deserialize] maps
    the selected index 0 to the score 1 (thumbs up) and the selected
    index 1 to the score 0 (thumbs down). *)
Theorem feedback_thumbs_scores `{Externals}
        (key : option string) (disabled : bool) (on_click : option Callback)
        (args kwargs : option PyObject) :
  feedback "thumbs" key disabled on_click args kwargs
  = (let! _ := check_fragment_path_policy in
     let! _ := check_cache_replay_rules in
     let! _ := check_callback_rules (FeedbackOnClick key <$> on_click) in
     let! _ := check_session_state_rules (Some []) (to_key (KeyStr <$> key))
                                         true in
     let! ctx := get_script_run_ctx in
     let button_group_proto :=
       ButtonGroupProto.Build
         (compute_widget_id "button_group" (to_key (KeyStr <$> key))
            (button_group_id_kwargs (to_key (KeyStr <$> key))
               [":material/thumb_up:"; ":material/thumb_down:"] [] false ctx))
         [":material/thumb_up:"; ":material/thumb_down:"] [] disabled RADIO
         false in
     let! button_group_state :=
       register_widget "button_group" (PButtonGroup button_group_proto) None
                       (FeedbackOnClick key <$> on_click) args kwargs
                       (SerdeFeedback
                          (ButtonGroupFeedbackSerde.Build (Some [1; 0])))
                       ctx in
     let! _ := dg_enqueue "button_group" (PButtonGroup button_group_proto) in
     ret button_group_state)
  /\ (exists format_func,
        feedback_mapping "thumbs" = Return (format_func, Some [1; 0]))
  /\ ButtonGroupFeedbackSerde.deserialize
       (ButtonGroupFeedbackSerde.Build (Some [1; 0])) (Some [0]) ""
     = Return (Some 1)
  /\ ButtonGroupFeedbackSerde.deserialize
       (ButtonGroupFeedbackSerde.Build (Some [1; 0])) (Some [1]) ""
     = Return (Some 0).
Proof.
  split; [reflexivity|].
  split; [|split]; [|reflexivity..].
  exists format_func_thumbs. reflexivity.
Qed.

(** C10. [ButtonSerde.deserialize] returns a [bool] for every input that
    is [None] or a [bool]: [False] for [None] and for [False], [True] for
    [True]. *)
Theorem button_serde_deserialize_total (widget_id : string) :
  (forall ui_value, is_bool (ButtonSerde.deserialize ui_value widget_id))
  /\ ButtonSerde.deserialize VNone widget_id = VBool false
  /\ ButtonSerde.deserialize (VBool false) widget_id = VBool false
  /\ ButtonSerde.deserialize (VBool true) widget_id = VBool true.
Proof.
  split; [|by repeat split].
  intros [|[]]; exact I.
Qed.

(** ** Loops and dictionaries *)

Lemma for_fold_app {A S} (l1 l2 : list A) (body : S -> A -> M S) (s : S)
      (w : World.t) :
  for_fold (l1 ++ l2) body s w = cbind (for_fold l1 body s) (for_fold l2 body) w.
Proof.
  revert s w. induction l1 as [|x l1 IH]; intros s w; [reflexivity|].
  simpl. unfold cbind.
  destruct (body s x w) as [[s'|e] w']; [|reflexivity].
  rewrite IH. reflexivity.
Qed.

Lemma for_fold_map {A B S} (f : A -> B) (l : list A) (body : S -> B -> M S)
      (s : S) (w : World.t) :
  for_fold (map f l) body s w = for_fold l (fun s x => body s (f x)) s w.
Proof.
  revert s w. induction l as [|x l IH]; intros s w; [reflexivity|].
  simpl. unfold cbind. destruct (body s (f x) w) as [[s'|e] w']; [apply IH | reflexivity].
Qed.

Lemma foldl_snoc {A} (l acc : list A) :
  foldl (fun page_list page => page_list ++ [page]) acc l = acc ++ l.
Proof.
  revert acc. induction l as [|x l IH]; intros acc; simpl.
  - by rewrite app_nil_r.
  - rewrite IH. by rewrite <- app_assoc.
Qed.

Section DictFacts.

Context {K V : Type} `{EqDecision K}.

Lemma get_wf (d : Dict.t K V) (k : K) (v : V) :
  Dict.wf d -> (k, v) ∈ d -> Dict.get d k = Some v.
Proof.
  unfold Dict.wf, Dict.keys.
  induction d as [|[k' v'] d IH]; intros Hwf Hin.
  - by apply elem_of_nil in Hin.
  - simpl in *. pose proof (NoDup_cons_1_1 _ _ Hwf) as Hk.
    apply NoDup_cons_1_2 in Hwf.
    apply elem_of_cons in Hin as [Heq|Hin].
    + injection Heq as -> ->. by rewrite decide_True.
    + destruct (decide (k' = k)) as [->|Hne]; [|by apply IH].
      exfalso. apply Hk. apply list_elem_of_fmap. by exists (k, v).
Qed.

Lemma get_set_same (d : Dict.t K V) (k : K) (v : V) :
  Dict.get (Dict.set d k v) k = Some v.
Proof.
  induction d as [|[k' v'] d IH]; simpl.
  - by rewrite decide_True.
  - destruct (decide (k' = k)) as [->|Hne]; simpl.
    + by rewrite decide_True.
    + by rewrite decide_False.
Qed.

Lemma get_set_other (d : Dict.t K V) (k k' : K) (v : V) :
  k <> k' -> Dict.get (Dict.set d k' v) k = Dict.get d k.
Proof.
  intros Hne. induction d as [|[k0 v0] d IH]; simpl.
  - by rewrite decide_False.
  - destruct (decide (k0 = k')) as [->|Hne0]; simpl.
    + by rewrite !decide_False.
    + destruct (decide (k0 = k)); [done | apply IH].
Qed.

Lemma mem_set (d : Dict.t K V) (k k' : K) (v : V) :
  Dict.mem k (Dict.set d k' v) = true <-> k = k' \/ Dict.mem k d = true.
Proof.
  unfold Dict.mem. destruct (decide (k = k')) as [->|Hne].
  - rewrite get_set_same. tauto.
  - rewrite (get_set_other d k k' v Hne).
    destruct (Dict.get d k); intuition congruence.
Qed.

End DictFacts.

Lemma map_snd_section_items (d : Dict.t SectionHeader (list loc)) :
  map snd (section_items d) = concat (Dict.values d).
Proof.
  induction d as [|[k pages] d IH]; [reflexivity|].
  simpl. rewrite map_app, IH. f_equal.
  induction pages as [|p pages IHp]; simpl; [done | by rewrite IHp].
Qed.

(** ** [navigation] *)

Section NavigationFacts.

Context `{Externals}.

Lemma pages_from_nav_sections_concat (d : nav_dict) :
  pages_from_nav_sections d = concat (Dict.values d).
Proof.
  unfold pages_from_nav_sections.
  enough (Hgen : forall acc ls,
             foldl (fun page_list pages =>
                      foldl (fun page_list page => page_list ++ [page])
                            page_list pages) acc ls
             = acc ++ concat ls) by apply (Hgen []).
  intros acc ls. revert acc.
  induction ls as [|l ls IH]; intros acc; simpl.
  - by rewrite app_nil_r.
  - rewrite foldl_snoc, IH. by rewrite <- app_assoc.
Qed.

(** The nested loops over sections and their pages visit the items of
    the dictionary in order. *)
Lemma nested_loop {S} (d_all d : nav_dict)
      (body : SectionHeader -> S -> loc -> M S) (s : S) (w : World.t) :
  (forall k v, (k, v) ∈ d -> Dict.get d_all k = Some v) ->
  for_fold (Dict.keys d)
    (fun st section_header =>
       let! pages := section_pages d_all section_header in
       for_fold pages (body section_header) st) s w
  = for_fold (section_items d) (fun st item => body item.1 st item.2) s w.
Proof.
  revert s w. induction d as [|[k pages] d IH]; intros s w Hget; [reflexivity|].
  simpl. rewrite for_fold_app.
  unfold section_pages. rewrite (Hget k pages) by left.
  unfold cbind, ret. rewrite for_fold_map. simpl.
  change (for_fold pages (fun s0 x => body k s0 x) s w)
    with (for_fold pages (body k) s w).
  destruct (for_fold pages (body k) s w) as [[s'|e] w']; [|reflexivity].
  apply IH. intros k' v' Hin. apply Hget. by right.
Qed.

(** *** The first loop: defaults and script hashes *)

Lemma scan_cons (page : loc) (l : list loc) (default_page : option loc)
      (d : Dict.t PageHash PageInfo.t) (w : World.t) :
  for_fold (page :: l) scan_page (default_page, d) w =
  let p := World.heap w page in
  match StreamlitPage.default p, default_page with
  | true, Some _ => (Raise (StreamlitAPIException multiple_default_msg), w)
  | _, _ =>
      if Dict.mem (_script_hash p) d then
        (Raise (StreamlitAPIException
                  (multiple_title_msg (StreamlitPage.title p))), w)
      else
        for_fold l scan_page
          (if StreamlitPage.default p then Some page else default_page,
           Dict.set d (_script_hash p) (page_info_entry p)) w
  end.
Proof.
  simpl. unfold cbind, scan_page, cbind, get_page, gets, ret, raise. simpl.
  destruct (StreamlitPage.default (World.heap w page)), default_page;
    simpl; try reflexivity;
    destruct (Dict.mem _ d); reflexivity.
Qed.

Ltac scan_step :=
  rewrite scan_cons; cbv zeta;
  repeat match goal with
    | |- context [match StreamlitPage.default ?p with _ => _ end] =>
        let E := fresh "Hdef" in destruct (StreamlitPage.default p) eqn:E
    | |- context [match ?dp with Some _ => _ | None => _ end] =>
        is_var dp; destruct dp
    | |- context [if Dict.mem ?k ?d then _ else _] =>
        let E := fresh "Hmem" in destruct (Dict.mem k d) eqn:E
    end;
  try (eexists; reflexivity).

Lemma scan_default_seen (l : list loc) (x : loc)
      (d : Dict.t PageHash PageInfo.t) (w : World.t) :
  (exists page, page ∈ l /\ StreamlitPage.default (World.heap w page) = true) ->
  exists msg,
    for_fold l scan_page (Some x, d) w = (Raise (StreamlitAPIException msg), w).
Proof.
  revert d. induction l as [|a l IH]; intros d (page & Hin & Hpage).
  - by apply elem_of_nil in Hin.
  - scan_step. apply IH. exists page. split; [|done].
    apply elem_of_cons in Hin as [->|Hin]; [congruence | done].
Qed.

Lemma scan_hash_seen (l : list loc) (default_page : option loc)
      (d : Dict.t PageHash PageInfo.t) (w : World.t) :
  (exists page, page ∈ l /\ Dict.mem (_script_hash (World.heap w page)) d = true) ->
  exists msg,
    for_fold l scan_page (default_page, d) w
    = (Raise (StreamlitAPIException msg), w).
Proof.
  revert default_page d.
  induction l as [|a l IH]; intros default_page d (page & Hin & Hpage).
  - by apply elem_of_nil in Hin.
  - apply elem_of_cons in Hin as [->|Hin].
    + scan_step; congruence.
    + scan_step; apply IH; exists page; (split; [done|]);
        apply mem_set; by right.
Qed.

Lemma scan_two_defaults (l : list loc) (default_page : option loc)
      (d : Dict.t PageHash PageInfo.t) (w : World.t) (i j : nat) (a b : loc) :
  (i < j)%nat -> l !! i = Some a -> l !! j = Some b ->
  StreamlitPage.default (World.heap w a) = true ->
  StreamlitPage.default (World.heap w b) = true ->
  exists msg,
    for_fold l scan_page (default_page, d) w
    = (Raise (StreamlitAPIException msg), w).
Proof.
  revert default_page d i j.
  induction l as [|x l IH]; intros default_page d i j Hij Hi Hj Ha Hb; [done|].
  destruct j as [|j]; [lia|]. simpl in Hj.
  destruct i as [|i]; simpl in Hi.
  - injection Hi as ->. scan_step; try congruence.
    apply scan_default_seen. exists b. split; [|done].
    by apply list_elem_of_lookup_2 in Hj.
  - scan_step; apply (IH _ _ i j); (lia || done).
Qed.

Lemma scan_two_hashes (l : list loc) (default_page : option loc)
      (d : Dict.t PageHash PageInfo.t) (w : World.t) (i j : nat) (a b : loc) :
  (i < j)%nat -> l !! i = Some a -> l !! j = Some b ->
  _script_hash (World.heap w a) = _script_hash (World.heap w b) ->
  exists msg,
    for_fold l scan_page (default_page, d) w
    = (Raise (StreamlitAPIException msg), w).
Proof.
  revert default_page d i j.
  induction l as [|x l IH]; intros default_page d i j Hij Hi Hj Hab; [done|].
  destruct j as [|j]; [lia|]. simpl in Hj.
  destruct i as [|i]; simpl in Hi.
  - injection Hi as ->.
    scan_step; apply scan_hash_seen; exists b;
      (split; [by apply list_elem_of_lookup_2 in Hj|]);
      rewrite <- Hab; apply mem_set; by left.
  - scan_step; apply (IH _ _ i j); (lia || done).
Qed.

Lemma scan_ok (l : list loc) (default_page : option loc)
      (d : Dict.t PageHash PageInfo.t) (w : World.t) :
  (forall page, page ∈ l -> StreamlitPage.default (World.heap w page) = false) ->
  NoDup (map (fun page => _script_hash (World.heap w page)) l) ->
  (forall page, page ∈ l -> Dict.mem (_script_hash (World.heap w page)) d = false) ->
  exists d',
    for_fold l scan_page (default_page, d) w = (Return (default_page, d'), w).
Proof.
  revert d. induction l as [|a l IH]; intros d Hdef Hnd Hd.
  - by exists d.
  - simpl in Hnd. pose proof (NoDup_cons_1_1 _ _ Hnd) as Ha.
    apply NoDup_cons_1_2 in Hnd.
    rewrite scan_cons. cbv zeta.
    rewrite (Hdef a) by left. rewrite (Hd a) by left.
    apply IH; [intros page Hin; apply Hdef; by right | done |].
    intros page Hin.
    destruct (Dict.mem (_script_hash (World.heap w page))
                (Dict.set d (_script_hash (World.heap w a))
                   (page_info_entry (World.heap w a)))) eqn:E; [|done].
    apply mem_set in E as [E|E].
    + exfalso. apply Ha. rewrite <- E.
      apply list_elem_of_fmap. by exists page.
    + rewrite (Hd page) in E by (by right). done.
Qed.

Lemma scan_sections_flat (d : nav_dict) (w : World.t) :
  Dict.wf d ->
  scan_sections d w
  = for_fold (pages_from_nav_sections d) scan_page (None, []) w.
Proof.
  intros Hwf. unfold scan_sections.
  rewrite (nested_loop d d (fun _ => scan_page)) by (intros; by apply get_wf).
  rewrite pages_from_nav_sections_concat, <- map_snd_section_items.
  by rewrite for_fold_map.
Qed.

End NavigationFacts.

Section NavigationTheorems.

Context `{Externals}.

Lemma cbind_return {A B} (m : M A) (k : A -> M B) (w w' : World.t) (a : A) :
  m w = (Return a, w') -> cbind m k w = k a w'.
Proof. intros Hm. unfold cbind. by rewrite Hm. Qed.

Lemma cbind_raise {A B} (m : M A) (k : A -> M B) (w w' : World.t)
      (e : exception) :
  m w = (Raise e, w') -> cbind m k w = (Raise e, w').
Proof. intros Hm. unfold cbind. by rewrite Hm. Qed.

Lemma navigation_scan_raises (pages : PagesArg) (position : string)
      (w : World.t) :
  is_Some (World.ctx w) ->
  Dict.wf (nav_sections_of pages) ->
  pages_from_nav_sections (nav_sections_of pages) <> [] ->
  (exists msg,
     for_fold (pages_from_nav_sections (nav_sections_of pages)) scan_page
              (None, []) w
     = (Raise (StreamlitAPIException msg), w)) ->
  exists msg,
    navigation pages position w = (Raise (StreamlitAPIException msg), w).
Proof.
  intros [c Hc] Hwf Hne [msg Hscan]. exists msg.
  unfold navigation.
  rewrite (cbind_return _ _ w w (Some c))
    by (unfold get_script_run_ctx, gets; by rewrite Hc).
  cbv zeta.
  destruct (pages_from_nav_sections (nav_sections_of pages)) eqn:E; [done|].
  apply cbind_raise. rewrite scan_sections_flat by done.
  rewrite E. exact Hscan.
Qed.

(** C5. With a script-run context and no page at all ([pages] is an
    empty list, or a dictionary whose section lists are all empty),
    [navigation] raises [StreamlitAPIException] and leaves the store
    as it found it: no message is built or queued, no page table is
    set, no page object is touched. *)
Theorem navigation_no_pages (pages : PagesArg) (position : string)
        (w : World.t) :
  is_Some (World.ctx w) ->
  no_pages pages ->
  navigation pages position w
  = (Raise (StreamlitAPIException no_page_msg), w).
Proof.
  intros [c Hc] Hno. unfold navigation.
  rewrite (cbind_return _ _ w w (Some c))
    by (unfold get_script_run_ctx, gets; by rewrite Hc).
  cbv zeta.
  assert (pages_from_nav_sections (nav_sections_of pages) = []) as ->;
    [|reflexivity].
  rewrite pages_from_nav_sections_concat.
  destruct pages as [l|d]; simpl in *.
  - by subst.
  - induction d as [|[k l] d IH]; [reflexivity|].
    simpl. rewrite (Hno k l) by left. simpl.
    apply IH. intros k' l' Hin. apply (Hno k'). by right.
Qed.

(** What the loop compares is the script hash: two entries of the
    page collection with the same script hash are refused. *)
Lemma navigation_duplicate_hash (pages : PagesArg) (position : string)
      (w : World.t) (i j : nat) (a b : loc) :
  is_Some (World.ctx w) ->
  Dict.wf (nav_sections_of pages) ->
  i <> j ->
  pages_from_nav_sections (nav_sections_of pages) !! i = Some a ->
  pages_from_nav_sections (nav_sections_of pages) !! j = Some b ->
  _script_hash (World.heap w a) = _script_hash (World.heap w b) ->
  exists msg,
    navigation pages position w = (Raise (StreamlitAPIException msg), w).
Proof.
  intros Hctx Hwf Hij Hi Hj Hhash.
  apply navigation_scan_raises; [done..| |].
  { intros E. by rewrite E in Hi. }
  destruct (Nat.lt_total i j) as [Hlt|[?|Hlt]]; [|done|].
  - by apply (scan_two_hashes _ _ _ _ i j a b).
  - by apply (scan_two_hashes _ _ _ _ j i b a).
Qed.

(** C4 (as amended). With a script-run context, a page collection in
    which two pages share a title (and with it the script hash, which
    is what the loop compares) makes [navigation] raise
    [StreamlitAPIException]; the store is left as it was. *)
Theorem navigation_duplicate_title (pages : PagesArg) (position : string)
        (w : World.t) (i j : nat) (a b : loc) :
  is_Some (World.ctx w) ->
  Dict.wf (nav_sections_of pages) ->
  i <> j ->
  pages_from_nav_sections (nav_sections_of pages) !! i = Some a ->
  pages_from_nav_sections (nav_sections_of pages) !! j = Some b ->
  StreamlitPage.title (World.heap w a) = StreamlitPage.title (World.heap w b) ->
  exists msg,
    navigation pages position w = (Raise (StreamlitAPIException msg), w).
Proof.
  intros Hctx Hwf Hij Hi Hj Htitle.
  apply (navigation_duplicate_hash pages position w i j a b); try done.
  unfold _script_hash. by rewrite Htitle.
Qed.

(** C6 (as amended). With a script-run context, a page collection in
    which two or more pages have [default=True] makes [navigation]
    raise [StreamlitAPIException]; the store is left as it was. *)
Theorem navigation_multiple_defaults (pages : PagesArg) (position : string)
        (w : World.t) (i j : nat) (a b : loc) :
  is_Some (World.ctx w) ->
  Dict.wf (nav_sections_of pages) ->
  i <> j ->
  pages_from_nav_sections (nav_sections_of pages) !! i = Some a ->
  pages_from_nav_sections (nav_sections_of pages) !! j = Some b ->
  StreamlitPage.default (World.heap w a) = true ->
  StreamlitPage.default (World.heap w b) = true ->
  exists msg,
    navigation pages position w = (Raise (StreamlitAPIException msg), w).
Proof.
  intros Hctx Hwf Hij Hi Hj Ha Hb.
  apply navigation_scan_raises; [done..| |].
  { intros E. by rewrite E in Hi. }
  destruct (Nat.lt_total i j) as [Hlt|[?|Hlt]]; [|done|].
  - by apply (scan_two_defaults _ _ _ _ i j a b).
  - by apply (scan_two_defaults _ _ _ _ j i b a).
Qed.

End NavigationTheorems.

Lemma navigation_duplicate_title_witness :
  exists msg,
    @navigation sample_externals (PageList [0; 1]%nat) "sidebar"
      (sample_world (Some sample_ctx) (sample_page "Home" false)
                    (sample_page "Home" false))
    = (Raise (StreamlitAPIException msg),
       sample_world (Some sample_ctx) (sample_page "Home" false)
                    (sample_page "Home" false)).
Proof.
  apply (@navigation_duplicate_title sample_externals (PageList [0; 1]%nat)
           "sidebar" _ 0%nat 1%nat 0%nat 1%nat).
  - by eexists.
  - apply (bool_decide_unpack _). vm_compute. exact I.
  - lia.
  - reflexivity.
  - reflexivity.
  - reflexivity.
Defined.

(** C4 as first stated, for every call, does not hold: without a
    script-run context [navigation] returns [None] before it looks at
    the pages, and two pages that share a title raise nothing. *)
Lemma no_ctx_duplicate_title_not_rejected :
  let w := sample_world None (sample_page "Home" false)
                        (sample_page "Home" false) in
  StreamlitPage.title (World.heap w 0%nat) = StreamlitPage.title (World.heap w 1%nat)
  /\ @navigation sample_externals (PageList [0; 1]%nat) "sidebar" w
     = (Return None, w).
Proof. split; reflexivity. Qed.

Lemma navigation_multiple_defaults_witness :
  exists msg,
    @navigation sample_externals
      (PageSections [("Main", [0%nat]); ("More", [1%nat])]) "sidebar"
      (sample_world (Some sample_ctx) (sample_page "Home" true)
                    (sample_page "About" true))
    = (Raise (StreamlitAPIException msg),
       sample_world (Some sample_ctx) (sample_page "Home" true)
                    (sample_page "About" true)).
Proof.
  apply (@navigation_multiple_defaults sample_externals
           (PageSections [("Main", [0%nat]); ("More", [1%nat])])
           "sidebar" _ 0%nat 1%nat 0%nat 1%nat).
  - by eexists.
  - apply (bool_decide_unpack _). vm_compute. exact I.
  - lia.
  - reflexivity.
  - reflexivity.
  - reflexivity.
  - reflexivity.
Defined.

(** C6 as first stated, for every call, does not hold: without a
    script-run context two default pages raise nothing. *)
Lemma no_ctx_multiple_defaults_not_rejected :
  let w := sample_world None (sample_page "Home" true)
                        (sample_page "About" true) in
  StreamlitPage.default (World.heap w 0%nat) = true
  /\ StreamlitPage.default (World.heap w 1%nat) = true
  /\ @navigation sample_externals (PageList [0; 1]%nat) "sidebar" w
     = (Return None, w).
Proof. repeat split; reflexivity. Qed.

Lemma navigation_no_pages_witness :
  @navigation sample_externals (PageSections [("Main", []); ("More", [])])
    "hidden"
    (sample_world (Some sample_ctx) (sample_page "Home" false)
                  (sample_page "About" false))
  = (Raise (StreamlitAPIException no_page_msg),
     sample_world (Some sample_ctx) (sample_page "Home" false)
                  (sample_page "About" false)).
Proof.
  apply (@navigation_no_pages sample_externals).
  - by eexists.
  - simpl. intros k l Hin.
    apply list_elem_of_In in Hin. simpl in Hin.
    destruct Hin as [E|[E|[]]]; by injection E.
Defined.

Section NavigationDefault.

Context `{Externals}.

Lemma app_pages_flat (items : list (SectionHeader * loc))
      (acc : list AppPage.t) (w : World.t) :
  for_fold items (fun acc item => app_page_of item.1 acc item.2) acc w
  = (Return (acc ++ map (app_page_entry (World.heap w)) items), w).
Proof.
  revert acc. induction items as [|[k p] items IH]; intros acc; simpl.
  - by rewrite app_nil_r.
  - unfold cbind, app_page_of at 1, cbind, get_page, gets, ret. simpl.
    rewrite IH. by rewrite <- app_assoc.
Qed.

Lemma build_app_pages_eq (d : nav_dict) (w : World.t) :
  Dict.wf d ->
  build_app_pages d w
  = (Return (map (app_page_entry (World.heap w)) (section_items d)), w).
Proof.
  intros Hwf. unfold build_app_pages.
  rewrite (nested_loop d d app_page_of) by (intros; by apply get_wf).
  by rewrite app_pages_flat.
Qed.

Lemma matching_page_world (found_page : option PageInfo.t)
      (page_list : list loc) (w : World.t) :
  exists r, matching_page found_page page_list w = (Return r, w).
Proof. destruct found_page; by eexists. Qed.

(** C9. In a valid call (a script-run context, at least one page,
    pairwise distinct script hashes) in which no page has
    [default=True], [navigation] returns a page, and on return the
    first page of the flattened page list is the default page: its
    [default] flag is set in the store, the flag of no other page has
    changed, and in the navigation message that is queued last the
    entries with [is_default] set are exactly those of the first
    page. *)
Theorem navigation_first_page_default (pages : PagesArg) (position : string)
        (w : World.t) (first : loc) :
  is_Some (World.ctx w) ->
  Dict.wf (nav_sections_of pages) ->
  head (pages_from_nav_sections (nav_sections_of pages)) = Some first ->
  NoDup (map (fun page => _script_hash (World.heap w page))
             (pages_from_nav_sections (nav_sections_of pages))) ->
  (forall page,
      page ∈ pages_from_nav_sections (nav_sections_of pages) ->
      StreamlitPage.default (World.heap w page) = false) ->
  exists page_to_return w' ctx' nav,
    navigation pages position w = (Return (Some page_to_return), w')
    /\ StreamlitPage.default (World.heap w' first) = true
    /\ (forall page, page <> first ->
          StreamlitPage.default (World.heap w' page)
          = StreamlitPage.default (World.heap w page))
    /\ World.ctx w' = Some ctx'
    /\ (exists earlier,
          ScriptRunContext.queue ctx' = earlier ++ [MsgNavigation nav])
    /\ (forall entry, entry ∈ NavigationProto.app_pages nav ->
          AppPage.is_default entry = true
          <-> AppPage.page_script_hash entry
              = _script_hash (World.heap w first)).
Proof.
  intros [c Hc] Hwf Hhead Hnd Hdef.
  set (d := nav_sections_of pages) in *.
  set (page_list := pages_from_nav_sections d) in *.
  apply head_Some in Hhead as [rest Hlist].
  destruct (scan_ok page_list None [] w Hdef Hnd) as [table Hscan]; [done|].
  set (heap1 := <[first := StreamlitPage.set_default true (World.heap w first)]>
                  (World.heap w)).
  set (w1 := World.set_heap heap1 w).
  destruct (build_app_pages_eq d w1 Hwf) as [].
  set (w2 := World.set_ctx (ScriptRunContext.set_pages table <$> World.ctx w1) w1).
  destruct (matching_page_world
              (get_page_script w2 (_script_hash (World.heap w2 first)))
              page_list w2) as [found Hfound].
  (* the store after the optional page-not-found message *)
  set (w3 := match found with
             | Some _ => w2
             | None => World.set_ctx
                         (ScriptRunContext.enqueue (MsgPageNotFound "")
                            <$> World.ctx w2) w2
             end).
  set (r := match found with Some page => page | None => first end).
  set (w4 := World.set_heap
               (<[r := StreamlitPage.set_can_be_called true (World.heap w3 r)]>
                  (World.heap w3)) w3).
  set (nav := NavigationProto.Build
                (if decide (position = "hidden") then HIDDEN else SIDEBAR)
                (Dict.keys d)
                (map (app_page_entry heap1) (section_items d))
                (_script_hash (World.heap w4 r))).
  set (w5 := World.set_ctx
               (ScriptRunContext.enqueue (MsgNavigation nav) <$> World.ctx w4) w4).
  assert (Hheap3 : World.heap w3 = heap1) by (subst w3; by destruct found).
  assert (Hctx3 : is_Some (World.ctx w3)).
  { subst w3 w2 w1. destruct found; simpl; rewrite Hc; by eexists. }
  destruct Hctx3 as [c3 Hc3].
  exists r, w5, (ScriptRunContext.enqueue (MsgNavigation nav) c3), nav.
  split; [|split; [|split; [|split; [|split]]]].
  - unfold navigation.
    rewrite (cbind_return _ _ w w (Some c))
      by (unfold get_script_run_ctx, gets; by rewrite Hc).
    cbv zeta. fold d. fold page_list. rewrite Hlist. rewrite <- Hlist.
    rewrite (cbind_return _ _ w w ((None, table) : scan_state))
      by (unfold d; rewrite scan_sections_flat by done; exact Hscan).
    rewrite (cbind_return _ _ w w1 first).
    2:{ unfold choose_default.
        rewrite (cbind_return _ _ w w first).
        - reflexivity.
        - unfold lift. f_equal. rewrite Hlist.
          by apply (getitem_of_nat (first :: rest) 0 first). }
    rewrite (cbind_return _ _ w1 w1 _ (build_app_pages_eq d w1 Hwf)).
    rewrite (cbind_return _ _ w1 w2 tt) by reflexivity.
    rewrite (cbind_return _ _ w2 w2 (World.heap w2 first)) by reflexivity.
    rewrite (cbind_return _ _ w2 w2
               (get_page_script w2 (_script_hash (World.heap w2 first))))
      by reflexivity.
    rewrite (cbind_return _ _ w2 w2 found Hfound).
    rewrite (cbind_return _ _ w2 w3 r) by (subst w3 r; by destruct found).
    reflexivity.
  - subst w5 w4. simpl. rewrite Hheap3.
    destruct (decide (r = first)) as [->|Hne].
    + rewrite fn_lookup_insert. simpl. subst heap1.
      by rewrite fn_lookup_insert.
    + rewrite fn_lookup_insert_ne by done. subst heap1.
      by rewrite fn_lookup_insert.
  - intros page Hpage. subst w5 w4. simpl. rewrite Hheap3.
    destruct (decide (r = page)) as [->|Hne].
    + rewrite fn_lookup_insert. simpl. subst heap1.
      by rewrite fn_lookup_insert_ne.
    + rewrite fn_lookup_insert_ne by done. subst heap1.
      by rewrite fn_lookup_insert_ne.
  - subst w5 w4. simpl. by rewrite Hc3.
  - simpl. by eexists.
  - intros entry Hentry. simpl in Hentry.
    apply list_elem_of_fmap in Hentry as ([k page] & -> & Hin).
    assert (Hpage : page ∈ page_list).
    { subst page_list. rewrite pages_from_nav_sections_concat,
        <- map_snd_section_items.
      apply list_elem_of_fmap. by exists (k, page). }
    unfold app_page_entry. simpl. subst heap1.
    destruct (decide (page = first)) as [->|Hne].
    + rewrite fn_lookup_insert. simpl. unfold _script_hash. simpl. tauto.
    + rewrite fn_lookup_insert_ne by done. rewrite (Hdef page Hpage).
      split; [done|]. intros Hhash. exfalso. apply Hne.
      assert (Hfirst : first ∈ page_list) by (rewrite Hlist; left).
      apply list_elem_of_lookup in Hpage as [i Hi].
      apply list_elem_of_lookup in Hfirst as [j Hj].
      assert (i = j); [|congruence].
      eapply NoDup_lookup; [exact Hnd| |].
      * rewrite list_lookup_fmap, Hi. reflexivity.
      * rewrite list_lookup_fmap, Hj. simpl. by rewrite Hhash.
Qed.

End NavigationDefault.

(** The command run on two sections of one page each, neither page
    marked as default: the first page is returned and flagged. *)
Example navigation_run :
  let r := @navigation sample_externals
             (PageSections [("Main", [1%nat]); ("More", [0%nat])]) "sidebar"
             (sample_world (Some sample_ctx) (sample_page "Home page" false)
                           (sample_page "About" false)) in
  r.1 = Return (Some 1%nat)
  /\ StreamlitPage.default (World.heap r.2 1%nat) = true
  /\ StreamlitPage._can_be_called (World.heap r.2 1%nat) = true
  /\ StreamlitPage.default (World.heap r.2 0%nat) = false
  /\ Dict.keys (ScriptRunContext.pages (default sample_ctx (World.ctx r.2)))
     = ["About"; "Home page"].
Proof. vm_compute. by repeat split. Qed.

Lemma navigation_first_page_default_witness :
  exists page_to_return w' ctx' nav,
    @navigation sample_externals
      (PageSections [("Main", [1%nat]); ("More", [0%nat])]) "sidebar"
      (sample_world (Some sample_ctx) (sample_page "Home" false)
                    (sample_page "About" false))
    = (Return (Some page_to_return), w')
    /\ StreamlitPage.default (World.heap w' 1%nat) = true
    /\ (forall page, page <> 1%nat ->
          StreamlitPage.default (World.heap w' page)
          = StreamlitPage.default
              (World.heap (sample_world (Some sample_ctx)
                             (sample_page "Home" false)
                             (sample_page "About" false)) page))
    /\ World.ctx w' = Some ctx'
    /\ (exists earlier,
          ScriptRunContext.queue ctx' = earlier ++ [MsgNavigation nav])
    /\ (forall entry, entry ∈ NavigationProto.app_pages nav ->
          AppPage.is_default entry = true
          <-> AppPage.page_script_hash entry = "About").
Proof.
  apply (@navigation_first_page_default sample_externals
           (PageSections [("Main", [1%nat]); ("More", [0%nat])]) "sidebar"
           (sample_world (Some sample_ctx) (sample_page "Home" false)
                         (sample_page "About" false)) 1%nat).
  - by eexists.
  - apply (bool_decide_unpack _). vm_compute. exact I.
  - reflexivity.
  - apply (bool_decide_unpack _). vm_compute. exact I.
  - intros page Hpage. apply list_elem_of_In in Hpage. simpl in Hpage.
    destruct Hpage as [<-|[<-|[]]]; reflexivity.
Defined.

(** ** [button.py]: argument validation *)

Section ButtonTheorems.

Context `{Externals}.

Lemma bad_type_true (type : string) :
  type <> "primary" -> type <> "secondary" -> bad_type type = true.
Proof.
  intros Hp Hs. unfold bad_type. rewrite bool_decide_eq_false_2; [done|].
  intros Hin. apply elem_of_cons in Hin as [?|Hin]; [done|].
  apply elem_of_cons in Hin as [?|Hin]; [done|].
  by apply elem_of_nil in Hin.
Qed.

(** C7. [button], [download_button] and [link_button] called with a
    [type] that is neither "primary" nor "secondary" raise
    [StreamlitAPIException] and leave the store as it was: no widget
    has been registered and nothing has been put on the delta
    stream. *)
Theorem button_type_rejected
        (label url : string) (data : DownloadData)
        (file_name mime : option string) (key : option Key)
        (help : option string) (on_click : option Callback)
        (args kwargs : option PyObject) (type : string)
        (disabled use_container_width : bool) (w : World.t) :
  type <> "primary" ->
  type <> "secondary" ->
  button label key help on_click args kwargs type disabled
         use_container_width w
  = (Raise (StreamlitAPIException (button_type_msg "st.button" type)), w)
  /\ download_button label data file_name mime key help on_click args kwargs
                     type disabled use_container_width w
     = (Raise (StreamlitAPIException (button_type_msg "st.button" type)), w)
  /\ link_button label url help type disabled use_container_width w
     = (Raise (StreamlitAPIException (button_type_msg "st.link_button" type)),
        w).
Proof.
  intros Hp Hs. pose proof (bad_type_true type Hp Hs) as Hbad.
  unfold button, download_button, link_button, cbind, get_script_run_ctx,
    gets. rewrite Hbad. by repeat split.
Qed.

(** C8 (as amended). For a page that [is_url] accepts as an external
    link and an icon, if one is given, that passes validation: without a
    label, or with the empty label, [page_link] raises
    [StreamlitAPIException] and queues nothing; with a non-empty label
    it puts one "page_link" message on the delta stream, with
    [external] set, [page] the URL and [label] the given label. *)
Theorem page_link_external
        (page : string) (label icon help : option string) (disabled : bool)
        (use_container_width : option bool) (w : World.t) :
  is_url page = true ->
  icon_ok icon ->
  match label with
  | None | Some "" =>
      page_link (PageStr page) label icon help disabled use_container_width w
      = (Raise (StreamlitAPIException label_required_msg), w)
  | Some text =>
      exists proto,
        page_link (PageStr page) label icon help disabled
                  use_container_width w
        = (Return tt,
           World.set_deltas
             (World.deltas w ++ [("page_link", PPageLink proto)]) w)
        /\ PageLinkProto.external proto = true
        /\ PageLinkProto.page proto = page
        /\ PageLinkProto.label proto = text
  end.
Proof.
  intros Hurl Hicon. unfold page_link, _page_link.
  assert (Hvalid :
            exists proto0,
              forall (base : PageLinkProto.t),
                match icon with
                | Some icon =>
                    let! icon := lift (validate_icon_or_emoji icon) in
                    ret (PageLinkProto.set_icon icon base)
                | None => ret base
                end w
                = (Return (match icon with
                           | Some _ => PageLinkProto.set_icon proto0 base
                           | None => base
                           end), w)).
  { destruct icon as [icon|]; [|by exists ""].
    destruct Hicon as [icon' Hicon']. exists icon'. intros base.
    unfold cbind, lift, ret. by rewrite Hicon'. }
  destruct Hvalid as [icon' Hvalid].
  erewrite cbind_return by apply Hvalid.
  rewrite Hurl.
  destruct label as [text|]; [|reflexivity].
  destruct text as [|ch text]; [reflexivity|].
  eexists. split; [reflexivity|].
  by destruct icon, help, use_container_width.
Qed.

End ButtonTheorems.

Lemma button_type_rejected_witness :
  let w := sample_world (Some sample_ctx) (sample_page "Home" false)
                        (sample_page "About" false) in
  @button sample_externals "Send" None None None None None "tertiary"
          false false w
  = (Raise (StreamlitAPIException (button_type_msg "st.button" "tertiary")), w)
  /\ @download_button sample_externals "Save" (DataStr "a,b") None None None
                      None None None None "tertiary" false false w
     = (Raise (StreamlitAPIException (button_type_msg "st.button" "tertiary")),
        w)
  /\ @link_button sample_externals "Docs" "https://docs.streamlit.io" None
                  "tertiary" false false w
     = (Raise (StreamlitAPIException
                 (button_type_msg "st.link_button" "tertiary")), w).
Proof.
  intros w.
  apply (@button_type_rejected sample_externals "Send" "https://docs.streamlit.io"
           (DataStr "a,b") None None None None None None None "tertiary"
           false false w); discriminate.
Defined.

Lemma page_link_external_witness :
  let w := sample_world (Some sample_ctx) (sample_page "Home" false)
                        (sample_page "About" false) in
  exists proto,
    @page_link sample_externals (PageStr "https://streamlit.io") (Some "Site")
               None None false None w
    = (Return tt,
       World.set_deltas (World.deltas w ++ [("page_link", PPageLink proto)]) w)
    /\ PageLinkProto.external proto = true
    /\ PageLinkProto.page proto = "https://streamlit.io"
    /\ PageLinkProto.label proto = "Site".
Proof.
  intros w.
  apply (@page_link_external sample_externals "https://streamlit.io"
           (Some "Site") None None false None w).
  - reflexivity.
  - exact I.
Defined.

(** C8 does not hold for every call: the icon is validated before the
    page is looked at, so an external link with a label and an icon that
    [validate_icon_or_emoji] refuses raises that function's error, and
    no message is queued. *)
Lemma external_link_refused_icon_not_queued :
  let w := sample_world (Some sample_ctx) (sample_page "Home" false)
                        (sample_page "About" false) in
  @is_url sample_externals_strict_icons "https://streamlit.io" = true
  /\ @page_link sample_externals_strict_icons (PageStr "https://streamlit.io")
                (Some "Site") (Some "not an icon") None false None w
     = (Raise (StreamlitAPIException (sample_icon_msg "not an icon")), w)
  /\ World.deltas w = [].
Proof. repeat split; reflexivity. Qed.

(** The same link without a label is refused. *)
Example external_link_needs_label :
  let w := sample_world (Some sample_ctx) (sample_page "Home" false)
                        (sample_page "About" false) in
  @page_link sample_externals (PageStr "https://streamlit.io") None
             None None false None w
  = (Raise (StreamlitAPIException label_required_msg), w).
Proof. reflexivity. Qed.

(** ** The arguments of the widget identifier *)

(** The keyword arguments that [_button_group] passes to
    [compute_widget_id] hold the key, the formatted options, the default
    selection, the container-width flag and the page, and nothing is
    lost in building them. *)
Lemma button_group_id_kwargs_inj
      (key key' : option string) (options options' : list string)
      (default default' : list bool) (width width' : bool)
      (ctx ctx' : option ScriptRunContext.t) :
  button_group_id_kwargs key options default width ctx
  = button_group_id_kwargs key' options' default' width' ctx' ->
  key = key' /\ options = options' /\ default = default' /\ width = width'
  /\ page_of ctx = page_of ctx'.
Proof. unfold button_group_id_kwargs. intros E. by simplify_eq. Qed.

(** * Further properties of the code *)

(** ** Serializers: errors and edge cases *)

Lemma comprehension_raise {A B} (f : A -> result B) (l : list A) (x : A)
      (P : exception -> Prop) :
  x ∈ l ->
  (exists e, f x = Raise e /\ P e) ->
  (forall y e, f y = Raise e -> P e) ->
  exists e, comprehension f l = Raise e /\ P e.
Proof.
  intros Hin (e & Hx & He) Hall. induction l as [|y l IH].
  - by apply elem_of_nil in Hin.
  - simpl. destruct (f y) as [b|e'] eqn:Hy.
    + apply elem_of_cons in Hin as [->|Hin]; [congruence|].
      destruct (IH Hin) as (e'' & -> & He''). by exists e''.
    + exists e'. split; [done|]. by apply (Hall y).
Qed.

Lemma index_raises_value_error {A} `{EqDecision A} (l : list A) (v : A)
      (e : exception) :
  index l v = Raise e -> exists msg, e = ValueError msg.
Proof.
  unfold index. destruct (index_from l v 0); [done|].
  intros [= <-]. by eexists.
Qed.

Lemma index_from_None {A} `{EqDecision A} (l : list A) (v : A) (i : nat) :
  v ∉ l -> index_from l v i = None.
Proof.
  revert i. induction l as [|x l IH]; intros i Hv; [done|]. simpl.
  apply not_elem_of_cons in Hv as [Hne Hv].
  rewrite decide_False by done. by apply IH.
Qed.

Lemma getitem_raises_index_error {A} (l : list A) (i : Z) (e : exception) :
  getitem l i = Raise e -> exists msg, e = IndexError msg.
Proof.
  unfold getitem.
  destruct ((0 <=? _) && _); [destruct (l !! _)|]; [done|..];
    intros [= <-]; by eexists.
Qed.

Lemma getitem_out_of_range {A} (l : list A) (i : Z) :
  i < - Z.of_nat (length l) \/ Z.of_nat (length l) <= i ->
  exists msg, getitem l i = Raise (IndexError msg).
Proof.
  intros Hi. unfold getitem.
  destruct (Z.ltb_spec i 0).
  - destruct (Z.leb_spec 0 (i + Z.of_nat (length l))); [lia|].
    simpl. by eexists.
  - destruct (Z.ltb_spec i (Z.of_nat (length l))); [lia|].
    rewrite andb_false_r. by eexists.
Qed.

Lemma getitem_negative {A} (l : list A) (i : Z) :
  - Z.of_nat (length l) <= i < 0 ->
  getitem l i = getitem l (i + Z.of_nat (length l))
  /\ exists x, getitem l i = Return x /\ x ∈ l.
Proof.
  intros Hi. unfold getitem.
  destruct (Z.ltb_spec i 0); [|lia].
  destruct (Z.ltb_spec (i + Z.of_nat (length l)) 0); [lia|].
  destruct (Z.leb_spec 0 (i + Z.of_nat (length l))); [|lia].
  destruct (Z.ltb_spec (i + Z.of_nat (length l)) (Z.of_nat (length l))); [|lia].
  simpl. split; [done|].
  destruct (lookup_lt_is_Some_2 l (Z.to_nat (i + Z.of_nat (length l))))
    as [x Hx]; [lia|].
  rewrite Hx. exists x. split; [done|]. by apply list_elem_of_lookup_2 in Hx.
Qed.

(** X1. [serialize] raises [ValueError] as soon as one of the selected
    values is not among the options. *)
Theorem options_serialize_unknown_value
        (self : ButtonGroupOptionsSerde.t) (value : list string) (v : string) :
  v ∈ value ->
  v ∉ ButtonGroupOptionsSerde.options self ->
  exists msg,
    ButtonGroupOptionsSerde.serialize self (Some value)
    = Raise (ValueError msg).
Proof.
  intros Hin Hv. unfold ButtonGroupOptionsSerde.serialize.
  destruct (comprehension_raise
              (fun val => index (ButtonGroupOptionsSerde.options self) val)
              value v (fun e => exists msg, e = ValueError msg) Hin)
    as (e & He & msg & ->).
  - unfold index. rewrite index_from_None by done. eexists. split; [done|].
    by eexists.
  - intros y e. apply index_raises_value_error.
  - by exists msg.
Qed.

Lemma options_serialize_unknown_value_witness :
  exists msg,
    ButtonGroupOptionsSerde.serialize
      (ButtonGroupOptionsSerde.Build ["red"; "green"] [])
      (Some ["green"; "blue"])
    = Raise (ValueError msg).
Proof.
  apply (options_serialize_unknown_value
           (ButtonGroupOptionsSerde.Build ["red"; "green"] [])
           ["green"; "blue"] "blue").
  - apply (bool_decide_unpack _). vm_compute. exact I.
  - apply (bool_decide_unpack _). vm_compute. exact I.
Defined.

(** X2. [deserialize] raises [IndexError] as soon as one of the indices
    sent by the client lies outside [-len(options) .. len(options)-1];
    with an empty option list every index does. *)
Theorem options_deserialize_out_of_range
        (self : ButtonGroupOptionsSerde.t) (ui_value : list Z) (i : Z)
        (widget_id : string) :
  i ∈ ui_value ->
  i < - Z.of_nat (length (ButtonGroupOptionsSerde.options self))
  \/ Z.of_nat (length (ButtonGroupOptionsSerde.options self)) <= i ->
  exists msg,
    ButtonGroupOptionsSerde.deserialize self (Some ui_value) widget_id
    = Raise (IndexError msg).
Proof.
  intros Hin Hi. unfold ButtonGroupOptionsSerde.deserialize.
  destruct (comprehension_raise
              (fun val => getitem (ButtonGroupOptionsSerde.options self) val)
              ui_value i (fun e => exists msg, e = IndexError msg) Hin)
    as (e & He & msg & ->).
  - destruct (getitem_out_of_range _ i Hi) as [msg Hmsg].
    eexists. split; [done|]. by eexists.
  - intros y e. apply getitem_raises_index_error.
  - by exists msg.
Qed.

Lemma options_deserialize_out_of_range_witness :
  exists msg,
    ButtonGroupOptionsSerde.deserialize
      (ButtonGroupOptionsSerde.Build ["red"; "green"] []) (Some [0; 2]) ""
    = Raise (IndexError msg).
Proof.
  apply (options_deserialize_out_of_range
           (ButtonGroupOptionsSerde.Build ["red"; "green"] []) [0; 2] 2 "").
  - apply (bool_decide_unpack _). vm_compute. exact I.
  - simpl. lia.
Defined.

(** X3. An index below zero that the client sends is not refused: within
    [-len(options) .. -1] it selects the option counted from the end,
    exactly as the index [i + len(options)] does. *)
Theorem options_deserialize_negative_index
        (self : ButtonGroupOptionsSerde.t) (i : Z) (widget_id : string) :
  - Z.of_nat (length (ButtonGroupOptionsSerde.options self)) <= i < 0 ->
  ButtonGroupOptionsSerde.deserialize self (Some [i]) widget_id
  = ButtonGroupOptionsSerde.deserialize self
      (Some [i + Z.of_nat (length (ButtonGroupOptionsSerde.options self))])
      widget_id
  /\ exists v,
       ButtonGroupOptionsSerde.deserialize self (Some [i]) widget_id
       = Return [v]
       /\ v ∈ ButtonGroupOptionsSerde.options self.
Proof.
  intros Hi. unfold ButtonGroupOptionsSerde.deserialize. simpl.
  destruct (getitem_negative (ButtonGroupOptionsSerde.options self) i Hi)
    as (Heq & v & Hv & Hin).
  rewrite <- Heq, Hv. split; [done|]. by exists v.
Qed.

Lemma options_deserialize_negative_index_witness :
  ButtonGroupOptionsSerde.deserialize
    (ButtonGroupOptionsSerde.Build ["red"; "green"; "blue"] []) (Some [-1]) ""
  = ButtonGroupOptionsSerde.deserialize
      (ButtonGroupOptionsSerde.Build ["red"; "green"; "blue"] [])
      (Some [-1 + 3]) ""
  /\ exists v,
       ButtonGroupOptionsSerde.deserialize
         (ButtonGroupOptionsSerde.Build ["red"; "green"; "blue"] [])
         (Some [-1]) ""
       = Return [v]
       /\ v ∈ ["red"; "green"; "blue"].
Proof.
  apply (options_deserialize_negative_index
           (ButtonGroupOptionsSerde.Build ["red"; "green"; "blue"] []) (-1) "").
  simpl. lia.
Defined.

(** X4. Selected values survive [serialize] followed by [deserialize]
    for every option list, also one with repeated options: a repeated
    option is sent as the index of its first occurrence, which holds the
    same value. *)
Theorem options_values_roundtrip_any_options
        (self : ButtonGroupOptionsSerde.t) (value : list string) :
  (forall v, v ∈ value -> v ∈ ButtonGroupOptionsSerde.options self) ->
  bind (ButtonGroupOptionsSerde.serialize self (Some value))
       (fun ui => ButtonGroupOptionsSerde.deserialize self (Some ui) "")
  = Return value.
Proof.
  intros Hvalue.
  unfold ButtonGroupOptionsSerde.serialize, ButtonGroupOptionsSerde.deserialize.
  apply comprehension_roundtrip. intros v Hv. by apply index_getitem, Hvalue.
Qed.

Lemma options_values_roundtrip_any_options_witness :
  bind (ButtonGroupOptionsSerde.serialize
          (ButtonGroupOptionsSerde.Build ["a"; "b"; "a"; "b"] [])
          (Some ["b"; "a"; "b"]))
       (fun ui => ButtonGroupOptionsSerde.deserialize
                    (ButtonGroupOptionsSerde.Build ["a"; "b"; "a"; "b"] [])
                    (Some ui) "")
  = Return ["b"; "a"; "b"].
Proof.
  apply (options_values_roundtrip_any_options
           (ButtonGroupOptionsSerde.Build ["a"; "b"; "a"; "b"] [])
           ["b"; "a"; "b"]).
  intros v Hv. apply list_elem_of_In in Hv. apply list_elem_of_In.
  simpl in *. intuition.
Defined.

Lemma index_from_first {A} `{EqDecision A} (l : list A) (v : A) (k n : nat) :
  l !! n = Some v ->
  exists j, index_from l v k = Some (k + j)%nat
            /\ (j <= n)%nat /\ l !! j = Some v.
Proof.
  revert k n. induction l as [|x l IH]; intros k n Hn; [done|]. simpl.
  destruct (decide (x = v)) as [->|Hne].
  - exists 0%nat. repeat split; [f_equal; lia | lia].
  - destruct n as [|n]; simpl in Hn; [congruence|].
    destruct (IH (S k) n Hn) as (j & Hj & Hle & Hl).
    exists (S j). repeat split; [rewrite Hj; f_equal; lia | lia | done].
Qed.

(** X5. With repeated options the indices do not survive: what comes
    back from [deserialize] followed by [serialize] is, for an index in
    range, the index of the first occurrence of the option it selects,
    which is never larger and selects the same option. *)
Theorem options_indices_normalised
        (self : ButtonGroupOptionsSerde.t) (i : Z) :
  0 <= i < Z.of_nat (length (ButtonGroupOptionsSerde.options self)) ->
  exists j,
    bind (ButtonGroupOptionsSerde.deserialize self (Some [i]) "")
         (fun v => ButtonGroupOptionsSerde.serialize self (Some v))
    = Return [j]
    /\ 0 <= j <= i
    /\ getitem (ButtonGroupOptionsSerde.options self) j
       = getitem (ButtonGroupOptionsSerde.options self) i.
Proof.
  intros Hi. unfold ButtonGroupOptionsSerde.deserialize,
    ButtonGroupOptionsSerde.serialize.
  destruct self as [options default_value]. simpl in *.
  destruct (lookup_lt_is_Some_2 options (Z.to_nat i)) as [v Hv]; [lia|].
  assert (Hg : getitem options i = Return v).
  { rewrite <- (Z2Nat.id i) by lia. by apply getitem_of_nat. }
  destruct (index_from_first options v 0 (Z.to_nat i) Hv) as (j & Hj & Hle & Hl).
  exists (Z.of_nat j). simpl. rewrite Hg. simpl.
  unfold index. rewrite Hj. simpl. split; [done|]. split; [lia|].
  by apply getitem_of_nat.
Qed.

Lemma options_indices_normalised_witness :
  exists j,
    bind (ButtonGroupOptionsSerde.deserialize
            (ButtonGroupOptionsSerde.Build ["a"; "b"; "a"] []) (Some [2]) "")
         (fun v => ButtonGroupOptionsSerde.serialize
                     (ButtonGroupOptionsSerde.Build ["a"; "b"; "a"] []) (Some v))
    = Return [j]
    /\ 0 <= j <= 2
    /\ getitem ["a"; "b"; "a"] j = getitem ["a"; "b"; "a"] 2.
Proof.
  apply (options_indices_normalised
           (ButtonGroupOptionsSerde.Build ["a"; "b"; "a"] []) 2).
  simpl. lia.
Defined.

(** For the list of the witness the index 2 comes back as 0. *)
Example repeated_option_index_run :
  bind (ButtonGroupOptionsSerde.deserialize
          (ButtonGroupOptionsSerde.Build ["a"; "b"; "a"] []) (Some [2]) "")
       (fun v => ButtonGroupOptionsSerde.serialize
                   (ButtonGroupOptionsSerde.Build ["a"; "b"; "a"] []) (Some v))
  = Return [0].
Proof. reflexivity. Qed.

(** X6. The feedback deserializer reads the first selected index and
    nothing else: an empty selection raises [IndexError], whatever the
    score table, and so does what [serialize] sends for [None]; further
    indices after the first are ignored. *)
Theorem feedback_deserialize_first_index
        (self : ButtonGroupFeedbackSerde.t) (i : Z) (rest : list Z)
        (widget_id : string) :
  (exists msg,
     ButtonGroupFeedbackSerde.deserialize self (Some []) widget_id
     = Raise (IndexError msg))
  /\ (exists msg,
        ButtonGroupFeedbackSerde.deserialize self
          (Some (ButtonGroupFeedbackSerde.serialize self None)) widget_id
        = Raise (IndexError msg))
  /\ ButtonGroupFeedbackSerde.deserialize self (Some (i :: rest)) widget_id
     = ButtonGroupFeedbackSerde.deserialize self (Some [i]) widget_id.
Proof.
  unfold ButtonGroupFeedbackSerde.deserialize,
    ButtonGroupFeedbackSerde.serialize.
  assert (Hhead : getitem (i :: rest) 0 = Return i)
    by apply (getitem_of_nat (i :: rest) 0 i eq_refl).
  assert (Hone : getitem [i] 0 = Return i) by reflexivity.
  destruct (ButtonGroupFeedbackSerde.index_to_score_mapping self);
    rewrite Hhead, Hone; repeat split; by eexists.
Qed.

(** X7. What [deserialize] gives back for a serialized score: without a
    score table (the "smiles" widget) the score itself; with the table
    [[1, 0]] of the "thumbs" widget the other of the two scores, so that
    a thumbs score written through [serialize] is read back flipped. *)
Theorem feedback_score_roundtrip (v thumb : Z) (widget_id : string) :
  0 <= thumb <= 1 ->
  ButtonGroupFeedbackSerde.deserialize
    (ButtonGroupFeedbackSerde.Build None)
    (Some (ButtonGroupFeedbackSerde.serialize
             (ButtonGroupFeedbackSerde.Build None) (Some v))) widget_id
  = Return (Some v)
  /\ ButtonGroupFeedbackSerde.deserialize
       (ButtonGroupFeedbackSerde.Build (Some [1; 0]))
       (Some (ButtonGroupFeedbackSerde.serialize
                (ButtonGroupFeedbackSerde.Build (Some [1; 0])) (Some thumb)))
       widget_id
     = Return (Some (1 - thumb)).
Proof.
  intros Hv. split; [reflexivity|].
  assert (thumb = 0 \/ thumb = 1) as [-> | ->] by lia; reflexivity.
Qed.

Lemma feedback_score_roundtrip_witness :
  ButtonGroupFeedbackSerde.deserialize
    (ButtonGroupFeedbackSerde.Build None)
    (Some (ButtonGroupFeedbackSerde.serialize
             (ButtonGroupFeedbackSerde.Build None) (Some 4))) ""
  = Return (Some 4)
  /\ ButtonGroupFeedbackSerde.deserialize
       (ButtonGroupFeedbackSerde.Build (Some [1; 0]))
       (Some (ButtonGroupFeedbackSerde.serialize
                (ButtonGroupFeedbackSerde.Build (Some [1; 0])) (Some 1))) ""
     = Return (Some (1 - 1)).
Proof. apply (feedback_score_roundtrip 4 1 ""). lia. Defined.

(** ** [navigation]: what it accepts, what it leaves behind *)

Lemma set_fresh {K V} `{EqDecision K} (d : Dict.t K V) (k : K) (v : V) :
  Dict.mem k d = false -> Dict.set d k v = d ++ [(k, v)].
Proof.
  unfold Dict.mem. induction d as [|[k' v'] d IH]; intros Hm; [done|].
  simpl in *. destruct (decide (k' = k)); [done|]. by rewrite IH.
Qed.

Section NavigationRuns.

Context `{Externals}.

Lemma scan_returns_inv (l : list loc) (dp dp' : option loc)
      (d d' : Dict.t PageHash PageInfo.t) (w w' : World.t) :
  for_fold l scan_page (dp, d) w = (Return (dp', d'), w') ->
  w' = w
  /\ d' = d ++ nav_page_table (World.heap w) l
  /\ (forall page, page ∈ l ->
        Dict.mem (_script_hash (World.heap w page)) d = false)
  /\ NoDup (map (fun page => _script_hash (World.heap w page)) l)
  /\ filter (fun page => StreamlitPage.default (World.heap w page) = true) l
     = match dp with Some _ => [] | None => option_list dp' end
  /\ (forall x, dp = Some x -> dp' = Some x).
Proof.
  revert dp d. induction l as [|a l IH]; intros dp d Hrun.
  - injection Hrun as -> -> ->. rewrite app_nil_r.
    repeat split; try done.
    + intros page Hin. by apply elem_of_nil in Hin.
    + constructor.
    + by destruct dp'.
  - rewrite scan_cons in Hrun. cbv zeta in Hrun.
    destruct (StreamlitPage.default (World.heap w a)) eqn:Ha;
      destruct dp as [x|]; try discriminate;
      destruct (Dict.mem (_script_hash (World.heap w a)) d) eqn:Hm;
      try discriminate;
      apply IH in Hrun as (-> & -> & Hfresh & Hnd & Hfilter & Hdp);
      (assert (Hold : forall page, page ∈ l ->
                 Dict.mem (_script_hash (World.heap w page)) d = false
                 /\ _script_hash (World.heap w page)
                    <> _script_hash (World.heap w a));
       [ intros page Hin; specialize (Hfresh page Hin); split;
         [ destruct (Dict.mem (_script_hash (World.heap w page)) d) eqn:E;
           [|done];
           rewrite (proj2 (mem_set d _ _ _) (or_intror E)) in Hfresh; done
         | intros E;
           rewrite (proj2 (mem_set d _ _ _) (or_introl E)) in Hfresh; done ]
       | ]);
      (split; [done|]);
      (split; [rewrite set_fresh by done; by rewrite <- app_assoc|]);
      (split; [intros page Hin; apply elem_of_cons in Hin as [->|Hin];
               [done | by apply Hold]|]);
      (split; [simpl; apply NoDup_cons_2; [|done];
               intros Hin; apply list_elem_of_fmap in Hin as (page & E & Hin);
               by apply (Hold page Hin)|]).
    + rewrite filter_cons_True by done. rewrite Hfilter.
      rewrite (Hdp a eq_refl). split; [done|]. intros x [=].
    + rewrite filter_cons_False by (rewrite Ha; done).
      split; [done|]. intros y [= <-]. by apply Hdp.
    + rewrite filter_cons_False by (rewrite Ha; done).
      split; [done|]. intros y [=].
Qed.

Lemma scan_raises_inv (l : list loc) (dp : option loc)
      (d : Dict.t PageHash PageInfo.t) (w w' : World.t) (e : exception) :
  for_fold l scan_page (dp, d) w = (Raise e, w') ->
  w' = w
  /\ ((e = StreamlitAPIException multiple_default_msg
       /\ exists i a,
            l !! i = Some a
            /\ StreamlitPage.default (World.heap w a) = true
            /\ (is_Some dp
                \/ exists j b,
                     (j < i)%nat /\ l !! j = Some b
                     /\ StreamlitPage.default (World.heap w b) = true))
      \/ (exists i a,
            e = StreamlitAPIException
                  (multiple_title_msg (StreamlitPage.title (World.heap w a)))
            /\ l !! i = Some a
            /\ (Dict.mem (_script_hash (World.heap w a)) d = true
                \/ exists j b,
                     (j < i)%nat /\ l !! j = Some b
                     /\ _script_hash (World.heap w b)
                        = _script_hash (World.heap w a)))).
Proof.
  revert dp d. induction l as [|a l IH]; intros dp d Hrun; [done|].
  rewrite scan_cons in Hrun. cbv zeta in Hrun.
  assert (Hnext : forall dp1,
             (dp1 = dp \/ (dp1 = Some a
                           /\ StreamlitPage.default (World.heap w a) = true)) ->
             for_fold l scan_page
               (dp1, Dict.set d (_script_hash (World.heap w a))
                       (page_info_entry (World.heap w a))) w = (Raise e, w') ->
             w' = w
             /\ ((e = StreamlitAPIException multiple_default_msg
                  /\ exists i a0,
                       (a :: l) !! i = Some a0
                       /\ StreamlitPage.default (World.heap w a0) = true
                       /\ (is_Some dp
                           \/ exists j b,
                                (j < i)%nat /\ (a :: l) !! j = Some b
                                /\ StreamlitPage.default (World.heap w b) = true))
                 \/ (exists i a0,
                       e = StreamlitAPIException
                             (multiple_title_msg
                                (StreamlitPage.title (World.heap w a0)))
                       /\ (a :: l) !! i = Some a0
                       /\ (Dict.mem (_script_hash (World.heap w a0)) d = true
                           \/ exists j b,
                                (j < i)%nat /\ (a :: l) !! j = Some b
                                /\ _script_hash (World.heap w b)
                                   = _script_hash (World.heap w a0))))).
  { intros dp1 Hdp1 Hrest.
    apply IH in Hrest as (-> & [(-> & i & a0 & Hi & Ha0 & Hseen)
                               |(i & a0 & -> & Hi & Hseen)]).
    - split; [done|]. left. split; [done|].
      exists (S i), a0. repeat split; [done..|].
      destruct Hseen as [Hsome|(j & b & Hj & Hb & Hdb)].
      + destruct Hdp1 as [->|[-> Ha]]; [by left|].
        right. exists 0%nat, a. repeat split; [lia|done..].
      + right. exists (S j), b. repeat split; [lia|done..].
    - split; [done|]. right. exists (S i), a0. repeat split; [done..|].
      destruct Hseen as [Hmem|(j & b & Hj & Hb & Hhash)].
      + apply mem_set in Hmem as [Heq|Hmem]; [|by left].
        right. exists 0%nat, a. repeat split; [lia|done..].
      + right. exists (S j), b. repeat split; [lia|done..]. }
  destruct (StreamlitPage.default (World.heap w a)) eqn:Ha;
    destruct dp as [x|].
  - injection Hrun as <- <-. split; [done|].
    left. split; [done|]. exists 0%nat, a. repeat split; [done..|].
    left. by eexists.
  - destruct (Dict.mem (_script_hash (World.heap w a)) d) eqn:Hm.
    + injection Hrun as <- <-. split; [done|].
      right. exists 0%nat, a. repeat split; [done..|]. by left.
    + apply (Hnext (Some a)); [|done]. by right.
  - destruct (Dict.mem (_script_hash (World.heap w a)) d) eqn:Hm.
    + injection Hrun as <- <-. split; [done|].
      right. exists 0%nat, a. repeat split; [done..|]. by left.
    + apply (Hnext (Some x)); [|done]. by left.
  - destruct (Dict.mem (_script_hash (World.heap w a)) d) eqn:Hm.
    + injection Hrun as <- <-. split; [done|].
      right. exists 0%nat, a. repeat split; [done..|]. by left.
    + apply (Hnext None); [|done]. by left.
Qed.

Lemma navigation_after_scan (pages : PagesArg) (position : string)
      (w : World.t) (c : ScriptRunContext.t) (first : loc) (rest : list loc)
      (dp : option loc) (table : Dict.t PageHash PageInfo.t) :
  World.ctx w = Some c ->
  Dict.wf (nav_sections_of pages) ->
  pages_from_nav_sections (nav_sections_of pages) = first :: rest ->
  for_fold (pages_from_nav_sections (nav_sections_of pages)) scan_page
           (None, []) w = (Return (dp, table), w) ->
  navigation pages position w
  = (Return (Some (nav_outcome pages position w c first dp table).1),
     (nav_outcome pages position w c first dp table).2).
Proof.
  intros Hc Hwf Hlist Hscan. destruct w as [cx heap deltas].
  simpl in Hc. subst cx. unfold nav_outcome. cbv zeta.
  set (d := nav_sections_of pages) in *.
  set (page_list := pages_from_nav_sections d) in *.
  set (w := World.Build (Some c) heap deltas) in *.
  set (dflt := default first dp).
  set (heap1 := match dp with
                | Some _ => World.heap w
                | None => <[first := StreamlitPage.set_default true
                                       (World.heap w first)]> (World.heap w)
                end).
  set (w1 := World.Build (Some c) heap1 deltas).
  set (w2 := World.Build (Some (ScriptRunContext.set_pages table c)) heap1 deltas).
  set (found := get_page_script w2 (_script_hash (heap1 dflt))).
  set (matching := match found with
                   | Some found =>
                       head (filter (fun p => _script_hash (heap1 p)
                                              = PageInfo.page_script_hash found)
                                    page_list)
                   | None => None
                   end).
  set (r := default dflt matching).
  set (c3 := match matching with
             | Some _ => ScriptRunContext.set_pages table c
             | None => ScriptRunContext.enqueue (MsgPageNotFound "")
                         (ScriptRunContext.set_pages table c)
             end).
  set (w3 := World.Build (Some c3) heap1 deltas).
  unfold navigation.
  rewrite (cbind_return _ _ w w (Some c)) by reflexivity.
  cbv zeta. fold d. fold page_list. rewrite Hlist. rewrite <- Hlist.
  rewrite (cbind_return _ _ w w ((dp, table) : scan_state))
    by (unfold d; rewrite scan_sections_flat by done; exact Hscan).
  rewrite (cbind_return _ _ w w1 dflt).
  2:{ unfold choose_default, dflt, w1, heap1. destruct dp as [a|]; [done|].
      rewrite (cbind_return _ _ w w first).
      - reflexivity.
      - unfold lift. f_equal. rewrite Hlist.
        by apply (getitem_of_nat (first :: rest) 0 first). }
  rewrite (cbind_return _ _ w1 w1 _ (build_app_pages_eq d w1 Hwf)).
  rewrite (cbind_return _ _ w1 w2 tt) by reflexivity.
  rewrite (cbind_return _ _ w2 w2 (heap1 dflt)) by reflexivity.
  rewrite (cbind_return _ _ w2 w2 found) by reflexivity.
  rewrite (cbind_return _ _ w2 w2 matching)
    by (unfold matching_page, matching; by destruct found).
  rewrite (cbind_return _ _ w2 w3 r)
    by (unfold r, w3, c3; by destruct matching).
  reflexivity.
Qed.

(** Every run of [navigation] under a script-run context ends in one of
    three ways. *)
Lemma navigation_cases (pages : PagesArg) (position : string) (w : World.t)
      (c : ScriptRunContext.t) :
  World.ctx w = Some c ->
  Dict.wf (nav_sections_of pages) ->
  (pages_from_nav_sections (nav_sections_of pages) = []
   /\ navigation pages position w
      = (Raise (StreamlitAPIException no_page_msg), w))
  \/ (exists e,
        for_fold (pages_from_nav_sections (nav_sections_of pages)) scan_page
                 (None, []) w = (Raise e, w)
        /\ navigation pages position w = (Raise e, w))
  \/ (exists first rest dp table,
        pages_from_nav_sections (nav_sections_of pages) = first :: rest
        /\ for_fold (pages_from_nav_sections (nav_sections_of pages)) scan_page
                    (None, []) w = (Return (dp, table), w)
        /\ navigation pages position w
           = (Return (Some (nav_outcome pages position w c first dp table).1),
              (nav_outcome pages position w c first dp table).2)).
Proof.
  intros Hc Hwf.
  destruct (pages_from_nav_sections (nav_sections_of pages))
    as [|first rest] eqn:Hlist.
  - left. split; [done|]. unfold navigation.
    rewrite (cbind_return _ _ w w (Some c))
      by (unfold get_script_run_ctx, gets; by rewrite Hc).
    cbv zeta. by rewrite Hlist.
  - right.
    destruct (for_fold (first :: rest) scan_page (None, []) w)
      as [[[dp table]|e] w1] eqn:Hscan.
    + right. pose proof Hscan as Hinv.
      apply scan_returns_inv in Hinv as (-> & _). rewrite <- Hlist in Hscan.
      exists first, rest, dp, table. split; [done|]. split; [by rewrite Hlist in Hscan|].
      by apply (navigation_after_scan pages position w c first rest).
    + left. pose proof Hscan as Hinv.
      apply scan_raises_inv in Hinv as (-> & _).
      exists e. split; [done|]. unfold navigation.
      rewrite (cbind_return _ _ w w (Some c))
        by (unfold get_script_run_ctx, gets; by rewrite Hc).
      cbv zeta. rewrite Hlist. apply cbind_raise.
      rewrite scan_sections_flat by done. by rewrite Hlist.
Qed.

End NavigationRuns.

Section NavigationExtras.

Context `{Externals}.

Lemma navigation_returns_inv (pages : PagesArg) (position : string)
      (w w' : World.t) (r : loc) :
  Dict.wf (nav_sections_of pages) ->
  navigation pages position w = (Return (Some r), w') ->
  exists c first rest dp,
    World.ctx w = Some c
    /\ pages_from_nav_sections (nav_sections_of pages) = first :: rest
    /\ NoDup (map (fun page => _script_hash (World.heap w page))
                  (pages_from_nav_sections (nav_sections_of pages)))
    /\ filter (fun page => StreamlitPage.default (World.heap w page) = true)
              (pages_from_nav_sections (nav_sections_of pages))
       = option_list dp
    /\ (r, w') = nav_outcome pages position w c first dp
                   (nav_page_table (World.heap w)
                      (pages_from_nav_sections (nav_sections_of pages))).
Proof.
  intros Hwf Hrun. destruct (World.ctx w) as [c|] eqn:Hc.
  2:{ unfold navigation in Hrun.
      rewrite (cbind_return _ _ w w None) in Hrun
        by (unfold get_script_run_ctx, gets; by rewrite Hc).
      discriminate. }
  destruct (navigation_cases pages position w c Hc Hwf)
    as [[_ Hnav]|[(e & _ & Hnav)|(first & rest & dp & table & Hlist & Hscan & Hnav)]];
    [congruence..|].
  apply scan_returns_inv in Hscan as (_ & -> & _ & Hnd & Hfilter & _).
  rewrite Hnav in Hrun. injection Hrun as <- <-.
  exists c, first, rest, dp. simpl. repeat split; done.
Qed.

Lemma script_hash_set_default (b : bool) (p : StreamlitPage.t) :
  _script_hash (StreamlitPage.set_default b p) = _script_hash p.
Proof. reflexivity. Qed.

(** The store of page objects before the last step of [navigation]
    differs from the initial one in the [default] flag of one page at
    most. *)
Lemma heap1_fields (heap : loc -> StreamlitPage.t) (first : loc)
      (dp : option loc) (p : loc) :
  let heap1 := match dp with
               | Some _ => heap
               | None => <[first := StreamlitPage.set_default true (heap first)]>
                           heap
               end in
  StreamlitPage.title (heap1 p) = StreamlitPage.title (heap p)
  /\ StreamlitPage.icon (heap1 p) = StreamlitPage.icon (heap p)
  /\ StreamlitPage._page (heap1 p) = StreamlitPage._page (heap p)
  /\ StreamlitPage._can_be_called (heap1 p)
     = StreamlitPage._can_be_called (heap p)
  /\ StreamlitPage.default (heap1 p)
     = match dp with
       | Some _ => StreamlitPage.default (heap p)
       | None => if decide (first = p) then true
                 else StreamlitPage.default (heap p)
       end.
Proof.
  destruct dp; simpl; [done|].
  destruct (decide (first = p)) as [->|Hne].
  - by rewrite fn_lookup_insert.
  - by rewrite fn_lookup_insert_ne.
Qed.

Lemma heap4_fields (heap1 : loc -> StreamlitPage.t) (r p : loc) :
  let heap4 := <[r := StreamlitPage.set_can_be_called true (heap1 r)]> heap1 in
  StreamlitPage.title (heap4 p) = StreamlitPage.title (heap1 p)
  /\ StreamlitPage.icon (heap4 p) = StreamlitPage.icon (heap1 p)
  /\ StreamlitPage._page (heap4 p) = StreamlitPage._page (heap1 p)
  /\ StreamlitPage.default (heap4 p) = StreamlitPage.default (heap1 p)
  /\ StreamlitPage._can_be_called (heap4 p)
     = if decide (r = p) then true else StreamlitPage._can_be_called (heap1 p).
Proof.
  simpl. destruct (decide (r = p)) as [->|Hne].
  - by rewrite fn_lookup_insert.
  - by rewrite fn_lookup_insert_ne.
Qed.

(** X8. Without a script-run context [navigation] returns [None] for
    every argument and leaves the store alone: no page is validated,
    flagged or registered, and no message is sent. *)
Theorem navigation_without_context (pages : PagesArg) (position : string)
        (w : World.t) :
  World.ctx w = None ->
  navigation pages position w = (Return None, w).
Proof.
  intros Hc. unfold navigation.
  by rewrite (cbind_return _ _ w w None)
    by (unfold get_script_run_ctx, gets; by rewrite Hc).
Qed.

(** X9. When [navigation] raises, the exception is a
    [StreamlitAPIException] and the store is exactly as before the call:
    all validation comes before the first change. *)
Theorem navigation_failure_is_clean (pages : PagesArg) (position : string)
        (w w' : World.t) (e : exception) :
  Dict.wf (nav_sections_of pages) ->
  navigation pages position w = (Raise e, w') ->
  w' = w /\ exists msg, e = StreamlitAPIException msg.
Proof.
  intros Hwf Hrun. destruct (World.ctx w) as [c|] eqn:Hc.
  2:{ unfold navigation in Hrun.
      rewrite (cbind_return _ _ w w None) in Hrun
        by (unfold get_script_run_ctx, gets; by rewrite Hc).
      discriminate. }
  destruct (navigation_cases pages position w c Hc Hwf)
    as [[_ Hnav]|[(e' & Hscan & Hnav)|(first & rest & dp & table & _ & _ & Hnav)]];
    rewrite Hnav in Hrun; [| |discriminate].
  - injection Hrun as <- <-. split; [done|]. by eexists.
  - injection Hrun as <- <-. split; [done|].
    apply scan_raises_inv in Hscan as (_ & [(-> & _)|(i & a & -> & _)]);
      by eexists.
Qed.

(** X10. Each error of [navigation] has its cause: the empty-list
    message means there is no page; the multiple-default message means
    two entries of the page list are marked default; the duplicate-title
    message names the title of a page whose script hash an earlier
    entry of the list already has. *)
Theorem navigation_error_reasons (pages : PagesArg) (position : string)
        (w w' : World.t) (e : exception) :
  is_Some (World.ctx w) ->
  Dict.wf (nav_sections_of pages) ->
  navigation pages position w = (Raise e, w') ->
  (pages_from_nav_sections (nav_sections_of pages) = []
   /\ e = StreamlitAPIException no_page_msg)
  \/ (e = StreamlitAPIException multiple_default_msg
      /\ exists i j a b,
           (j < i)%nat
           /\ pages_from_nav_sections (nav_sections_of pages) !! i = Some a
           /\ pages_from_nav_sections (nav_sections_of pages) !! j = Some b
           /\ StreamlitPage.default (World.heap w a) = true
           /\ StreamlitPage.default (World.heap w b) = true)
  \/ (exists i j a b,
        (j < i)%nat
        /\ pages_from_nav_sections (nav_sections_of pages) !! i = Some a
        /\ pages_from_nav_sections (nav_sections_of pages) !! j = Some b
        /\ _script_hash (World.heap w b) = _script_hash (World.heap w a)
        /\ e = StreamlitAPIException
                 (multiple_title_msg (StreamlitPage.title (World.heap w a)))).
Proof.
  intros [c Hc] Hwf Hrun.
  destruct (navigation_cases pages position w c Hc Hwf)
    as [[Hlist Hnav]|[(e' & Hscan & Hnav)|(first & rest & dp & table & _ & _ & Hnav)]];
    rewrite Hnav in Hrun; [| |discriminate].
  - injection Hrun as <- <-. by left.
  - injection Hrun as <- <-. right.
    apply scan_raises_inv
      in Hscan as (_ & [(-> & i & a & Hi & Ha & Hseen)|(i & a & -> & Hi & Hseen)]).
    + left. split; [done|].
      destruct Hseen as [[? [=]]|(j & b & Hj & Hb & Hdb)].
      by exists i, j, a, b.
    + right. destruct Hseen as [[=]|(j & b & Hj & Hb & Hhash)].
      by exists i, j, a, b.
Qed.

(** X11. [navigation] refuses nothing else: with a script-run context,
    at least one page, pairwise distinct script hashes and at most one
    page marked default, it returns one of the pages. *)
Theorem navigation_accepts_valid_pages (pages : PagesArg) (position : string)
        (w : World.t) :
  is_Some (World.ctx w) ->
  Dict.wf (nav_sections_of pages) ->
  pages_from_nav_sections (nav_sections_of pages) <> [] ->
  NoDup (map (fun page => _script_hash (World.heap w page))
             (pages_from_nav_sections (nav_sections_of pages))) ->
  (forall i j a b,
      pages_from_nav_sections (nav_sections_of pages) !! i = Some a ->
      pages_from_nav_sections (nav_sections_of pages) !! j = Some b ->
      StreamlitPage.default (World.heap w a) = true ->
      StreamlitPage.default (World.heap w b) = true ->
      i = j) ->
  exists r w',
    navigation pages position w = (Return (Some r), w')
    /\ r ∈ pages_from_nav_sections (nav_sections_of pages).
Proof.
  intros [c Hc] Hwf Hne Hnd Hone.
  destruct (navigation_cases pages position w c Hc Hwf)
    as [[Hlist _]|[(e & Hscan & _)|(first & rest & dp & table & Hlist & Hscan & Hnav)]].
  - done.
  - exfalso.
    apply scan_raises_inv
      in Hscan as (_ & [(_ & i & a & Hi & Ha & Hseen)|(i & a & _ & Hi & Hseen)]).
    + destruct Hseen as [[? [=]]|(j & b & Hj & Hb & Hdb)].
      specialize (Hone i j a b Hi Hb Ha Hdb). lia.
    + destruct Hseen as [[=]|(j & b & Hj & Hb & Hhash)].
      assert (i = j); [|lia].
      eapply NoDup_lookup; [exact Hnd| |].
      * rewrite list_lookup_fmap, Hi. reflexivity.
      * rewrite list_lookup_fmap, Hb. simpl. by rewrite Hhash.
  - eexists _, _. split; [exact Hnav|].
    apply scan_returns_inv in Hscan as (_ & _ & _ & _ & Hfilter & _).
    unfold nav_outcome. cbv zeta. simpl.
    set (page_list := pages_from_nav_sections (nav_sections_of pages)) in *.
    assert (Hdflt : default first dp ∈ page_list).
    { destruct dp as [a|]; simpl.
      - assert (Ha : a ∈ filter
                       (fun page => StreamlitPage.default (World.heap w page) = true)
                       page_list) by (rewrite Hfilter; left).
        by apply list_elem_of_filter in Ha as [_ Ha].
      - rewrite Hlist. left. }
    match goal with
    | |- default _ ?m ∈ _ => destruct m as [q|] eqn:Hm; simpl; [|done]
    end.
    destruct (get_page_script _ _); [|done].
    apply head_Some in Hm as [tl Hm].
    assert (Hq : q ∈ q :: tl) by left. rewrite <- Hm in Hq.
    by apply list_elem_of_filter in Hq as [_ Hq].
Qed.

End NavigationExtras.

Section NavigationOutcome.

Context `{Externals}.

Ltac open_run Hwf Hrun :=
  let c := fresh "c" in
  let first := fresh "first" in
  let rest := fresh "rest" in
  let dp := fresh "dp" in
  destruct (navigation_returns_inv _ _ _ _ _ Hwf Hrun)
    as (c & first & rest & dp & Hc & Hlist & Hnd & Hfilter & Hout);
  unfold nav_outcome in Hout; cbv zeta in Hout;
  injection Hout as Hr Hw'.

(** X12. On return the page table of the pages manager is replaced by
    one entry per page of the call, in the order of the flattened page
    list, keyed by the page's script hash (all keys distinct) and
    holding its title, icon, script path and URL path name. *)
Theorem navigation_page_table (pages : PagesArg) (position : string)
        (w w' : World.t) (r : loc) :
  Dict.wf (nav_sections_of pages) ->
  navigation pages position w = (Return (Some r), w') ->
  exists c',
    World.ctx w' = Some c'
    /\ ScriptRunContext.pages c'
       = nav_page_table (World.heap w)
           (pages_from_nav_sections (nav_sections_of pages))
    /\ NoDup (Dict.keys (ScriptRunContext.pages c')).
Proof.
  intros Hwf Hrun. open_run Hwf Hrun. subst w'. simpl.
  eexists. split; [reflexivity|].
  assert (Hpages : forall msg c0,
             ScriptRunContext.pages (ScriptRunContext.enqueue msg c0)
             = ScriptRunContext.pages c0) by done.
  rewrite Hpages.
  match goal with
  | |- context [match ?m with Some _ => _ | None => _ end] =>
      destruct m
  end; simpl; (split; [done|]);
    unfold Dict.keys, nav_page_table; by rewrite map_map.
Qed.

Lemma app_page_entry_ext (heap heap' : loc -> StreamlitPage.t)
      (items : list (SectionHeader * loc)) :
  (forall p, StreamlitPage.title (heap' p) = StreamlitPage.title (heap p)
             /\ StreamlitPage.icon (heap' p) = StreamlitPage.icon (heap p)
             /\ StreamlitPage.default (heap' p) = StreamlitPage.default (heap p)) ->
  map (app_page_entry heap') items = map (app_page_entry heap) items.
Proof.
  intros Hext. apply map_ext. intros [k p]. unfold app_page_entry, _script_hash.
  simpl. destruct (Hext p) as (-> & -> & ->). reflexivity.
Qed.

(** X13. On return the outbound queue has grown by one navigation
    message, preceded by a page-not-found message or by nothing, and
    everything queued before is still there.  The navigation message
    lists the section headers in order and one entry per page, in the
    order of the page list, with the page's section, title, icon, hash
    and the [default] flag the page object has on return; its
    [page_script_hash] is the hash of the returned page. *)
Theorem navigation_message (pages : PagesArg) (position : string)
        (w w' : World.t) (c : ScriptRunContext.t) (r : loc) :
  Dict.wf (nav_sections_of pages) ->
  World.ctx w = Some c ->
  navigation pages position w = (Return (Some r), w') ->
  exists c' nav,
    World.ctx w' = Some c'
    /\ (ScriptRunContext.queue c'
        = ScriptRunContext.queue c ++ [MsgNavigation nav]
        \/ ScriptRunContext.queue c'
           = ScriptRunContext.queue c ++ [MsgPageNotFound ""; MsgNavigation nav])
    /\ NavigationProto.position nav
       = (if decide (position = "hidden") then HIDDEN else SIDEBAR)
    /\ NavigationProto.sections nav = Dict.keys (nav_sections_of pages)
    /\ NavigationProto.app_pages nav
       = map (app_page_entry (World.heap w'))
             (section_items (nav_sections_of pages))
    /\ NavigationProto.page_script_hash nav = _script_hash (World.heap w' r).
Proof.
  intros Hwf Hctx Hrun. open_run Hwf Hrun.
  rewrite Hctx in Hc. injection Hc as <-.
  rewrite Hw'. simpl. eexists _, _. split; [reflexivity|].
  rewrite <- Hr. simpl.
  split.
  { match goal with
    | |- context [match ?m with Some _ => _ | None => _ end] =>
        destruct m
    end; simpl; [by left|right]. by rewrite <- app_assoc. }
  simpl. split; [done|]. split; [done|]. split; [|done].
  symmetry. apply app_page_entry_ext. intros p.
  match goal with
  | |- context [<[r := StreamlitPage.set_can_be_called true (?h r)]> ?h] =>
      destruct (heap4_fields h r p) as (Ht & Hi & _ & Hd & _)
  end.
  simpl in *. by rewrite Ht, Hi, Hd.
Qed.

(** X14. The returned page is one of the pages of the call and the only
    one that is ordained: its [_can_be_called] flag is set, that of every
    other page is as before, no title, icon or script of any page has
    changed, and nothing was put on the delta stream. *)
Theorem navigation_ordains_returned_page (pages : PagesArg) (position : string)
        (w w' : World.t) (r : loc) :
  Dict.wf (nav_sections_of pages) ->
  navigation pages position w = (Return (Some r), w') ->
  r ∈ pages_from_nav_sections (nav_sections_of pages)
  /\ StreamlitPage._can_be_called (World.heap w' r) = true
  /\ (forall p, p <> r ->
         StreamlitPage._can_be_called (World.heap w' p)
         = StreamlitPage._can_be_called (World.heap w p))
  /\ (forall p,
         StreamlitPage.title (World.heap w' p) = StreamlitPage.title (World.heap w p)
         /\ StreamlitPage.icon (World.heap w' p) = StreamlitPage.icon (World.heap w p)
         /\ StreamlitPage._page (World.heap w' p)
            = StreamlitPage._page (World.heap w p))
  /\ World.deltas w' = World.deltas w.
Proof.
  intros Hwf Hrun. open_run Hwf Hrun.
  set (page_list := pages_from_nav_sections (nav_sections_of pages)) in *.
  split.
  { rewrite Hr.
    assert (Hdflt : default first dp ∈ page_list).
    { destruct dp as [a|]; simpl.
      - assert (Ha : a ∈ filter
                       (fun page =>
                          StreamlitPage.default (World.heap w page) = true)
                       page_list) by (rewrite Hfilter; left).
        by apply list_elem_of_filter in Ha as [_ Ha].
      - rewrite Hlist. left. }
    match goal with
    | |- default _ ?m ∈ _ => destruct m as [q|] eqn:Hm; simpl; [|done]
    end.
    destruct (get_page_script _ _); [|done].
    apply head_Some in Hm as [tl Hm].
    assert (Hq : q ∈ q :: tl) by left. rewrite <- Hm in Hq.
    by apply list_elem_of_filter in Hq as [_ Hq]. }
  rewrite Hw'. simpl. rewrite <- Hr.
  match goal with
  | |- context [<[r := StreamlitPage.set_can_be_called true (?h r)]> ?h] =>
      set (heap1 := h)
  end.
  split; [|split; [|split; [|done]]].
  - by rewrite fn_lookup_insert.
  - intros p Hp. rewrite fn_lookup_insert_ne by done.
    by destruct (heap1_fields (World.heap w) first dp p) as (_ & _ & _ & ? & _).
  - intros p.
    destruct (heap4_fields heap1 r p) as (-> & -> & -> & _).
    by destruct (heap1_fields (World.heap w) first dp p) as (? & ? & ? & _).
Qed.

(** X15. On return exactly one page of the call is marked default. *)
Theorem navigation_one_default_on_return (pages : PagesArg) (position : string)
        (w w' : World.t) (r : loc) :
  Dict.wf (nav_sections_of pages) ->
  navigation pages position w = (Return (Some r), w') ->
  exists default_page,
    default_page ∈ pages_from_nav_sections (nav_sections_of pages)
    /\ forall p,
         p ∈ pages_from_nav_sections (nav_sections_of pages) ->
         StreamlitPage.default (World.heap w' p) = true <-> p = default_page.
Proof.
  intros Hwf Hrun. open_run Hwf Hrun. rewrite Hw'. simpl. rewrite <- Hr.
  set (page_list := pages_from_nav_sections (nav_sections_of pages)) in *.
  match goal with
  | |- context [<[r := StreamlitPage.set_can_be_called true (?h r)]> ?h] =>
      set (heap1 := h)
  end.
  assert (Hdef4 : forall p,
             StreamlitPage.default
               ((<[r := StreamlitPage.set_can_be_called true (heap1 r)]> heap1) p)
             = StreamlitPage.default (heap1 p))
    by (intros p; by destruct (heap4_fields heap1 r p) as (_ & _ & _ & ? & _)).
  assert (Hdef1 := fun p => proj2 (proj2 (proj2 (proj2
                     (heap1_fields (World.heap w) first dp p))))).
  simpl in Hdef1. fold heap1 in Hdef1.
  destruct dp as [a|]; simpl in *.
  - exists a.
    assert (Ha : forall p, p ∈ page_list ->
               StreamlitPage.default (World.heap w p) = true <-> p = a).
    { intros p Hp. split.
      - intros Hd.
        assert (Hin : p ∈ filter
                        (fun page =>
                           StreamlitPage.default (World.heap w page) = true)
                        page_list) by (by apply list_elem_of_filter).
        rewrite Hfilter in Hin. by apply list_elem_of_singleton in Hin.
      - intros ->.
        assert (Hin : a ∈ filter
                        (fun page =>
                           StreamlitPage.default (World.heap w page) = true)
                        page_list) by (rewrite Hfilter; left).
        by apply list_elem_of_filter in Hin as [Hin _]. }
    split.
    + assert (Hin : a ∈ filter
                      (fun page =>
                         StreamlitPage.default (World.heap w page) = true)
                      page_list) by (rewrite Hfilter; left).
      by apply list_elem_of_filter in Hin as [_ Hin].
    + intros p Hp. rewrite Hdef4. by apply Ha.
  - exists first. split; [rewrite Hlist; left|].
    intros p Hp. rewrite Hdef4, Hdef1.
    destruct (decide (first = p)) as [->|Hne]; [done|].
    split; [|by intros ->].
    intros Hd. exfalso.
    assert (Hin : p ∈ filter
                    (fun page =>
                       StreamlitPage.default (World.heap w page) = true)
                    page_list) by (by apply list_elem_of_filter).
    rewrite Hfilter in Hin. by apply elem_of_nil in Hin.
Qed.

(** X16. When the call marks a page as default, [navigation] changes the
    [default] flag of no page at all: whatever page [p] is, its flag on
    return is the one it had. *)
Theorem navigation_keeps_explicit_default (pages : PagesArg)
        (position : string) (w w' : World.t) (r a p : loc) :
  Dict.wf (nav_sections_of pages) ->
  a ∈ pages_from_nav_sections (nav_sections_of pages) ->
  StreamlitPage.default (World.heap w a) = true ->
  navigation pages position w = (Return (Some r), w') ->
  StreamlitPage.default (World.heap w' p)
  = StreamlitPage.default (World.heap w p).
Proof.
  intros Hwf Ha Hdef Hrun. open_run Hwf Hrun. rewrite Hw'. simpl.
  destruct dp as [x|].
  - match goal with
    | |- context [<[?q := StreamlitPage.set_can_be_called true (?h ?q)]> ?h] =>
        by destruct (heap4_fields h q p) as (_ & _ & _ & ? & _)
    end.
  - exfalso.
    assert (Hin : a ∈ filter
                    (fun page =>
                       StreamlitPage.default (World.heap w page) = true)
                    (pages_from_nav_sections (nav_sections_of pages)))
      by (by apply list_elem_of_filter).
    rewrite Hfilter in Hin. by apply elem_of_nil in Hin.
Qed.




Lemma replace_char_chars (old new : ascii) (s : string) :
  old <> new -> old ∉ chars (replace_char old new s).
Proof.
  intros Hne. induction s as [|ch s IH]; simpl.
  - apply not_elem_of_nil.
  - apply not_elem_of_cons. split; [|done].
    destruct (decide (ch = old)); congruence.
Qed.

(** X19. The URL path name of every entry of the navigation message is
    the page's title with every space replaced by an underscore; it
    contains no space. *)
Theorem navigation_url_pathnames (pages : PagesArg) (position : string)
        (w w' : World.t) (c : ScriptRunContext.t) (r : loc) :
  Dict.wf (nav_sections_of pages) ->
  World.ctx w = Some c ->
  navigation pages position w = (Return (Some r), w') ->
  exists c' earlier nav,
    World.ctx w' = Some c'
    /\ ScriptRunContext.queue c' = earlier ++ [MsgNavigation nav]
    /\ forall entry,
         entry ∈ NavigationProto.app_pages nav ->
         AppPage.url_pathname entry
         = replace_char " " "_" (AppPage.page_name entry)
         /\ " "%char ∉ chars (AppPage.url_pathname entry).
Proof.
  intros Hwf Hctx Hrun. open_run Hwf Hrun.
  rewrite Hw'. simpl. eexists _, _, _. split; [reflexivity|].
  split; [reflexivity|].
  intros entry Hentry. simpl in Hentry.
  apply list_elem_of_fmap in Hentry as (item & -> & _).
  unfold app_page_entry. simpl. split; [done|].
  by apply replace_char_chars.
Qed.

End NavigationOutcome.

(** Runs of [navigation] on the sample calls. *)

Ltac sample_wf := apply (bool_decide_unpack _); vm_compute; exact I.

Lemma navigation_without_context_witness :
  @navigation sample_externals sample_sections "sidebar"
    (sample_world None (sample_page "Home page" false)
                  (sample_page "About" false))
  = (Return None,
     sample_world None (sample_page "Home page" false)
                  (sample_page "About" false)).
Proof. apply (@navigation_without_context sample_externals). reflexivity. Defined.

Lemma navigation_failure_is_clean_witness :
  (@navigation sample_externals (PageList [0; 1]%nat) "sidebar"
     sample_clash_world).2 = sample_clash_world
  /\ exists msg,
       StreamlitAPIException (multiple_title_msg "Home")
       = StreamlitAPIException msg.
Proof.
  apply (@navigation_failure_is_clean sample_externals (PageList [0; 1]%nat)
           "sidebar" sample_clash_world).
  - sample_wf.
  - vm_compute. reflexivity.
Defined.

Lemma navigation_error_reasons_witness :
  let l := pages_from_nav_sections (nav_sections_of (PageList [0; 1]%nat)) in
  let w := sample_clash_world in
  let e := StreamlitAPIException (multiple_title_msg "Home") in
  (l = [] /\ e = StreamlitAPIException no_page_msg)
  \/ (e = StreamlitAPIException multiple_default_msg
      /\ exists i j a b,
           (j < i)%nat /\ l !! i = Some a /\ l !! j = Some b
           /\ StreamlitPage.default (World.heap w a) = true
           /\ StreamlitPage.default (World.heap w b) = true)
  \/ (exists i j a b,
        (j < i)%nat /\ l !! i = Some a /\ l !! j = Some b
        /\ @_script_hash sample_externals (World.heap w b)
           = @_script_hash sample_externals (World.heap w a)
        /\ e = StreamlitAPIException
                 (multiple_title_msg (StreamlitPage.title (World.heap w a)))).
Proof.
  apply (@navigation_error_reasons sample_externals (PageList [0; 1]%nat)
           "sidebar" sample_clash_world
           (@navigation sample_externals (PageList [0; 1]%nat) "sidebar"
              sample_clash_world).2).
  - by eexists.
  - sample_wf.
  - vm_compute. reflexivity.
Defined.

Lemma navigation_accepts_valid_pages_witness :
  exists r w',
    @navigation sample_externals sample_sections "hidden"
      (sample_nav_world true false) = (Return (Some r), w')
    /\ r ∈ pages_from_nav_sections (nav_sections_of sample_sections).
Proof.
  apply (@navigation_accepts_valid_pages sample_externals sample_sections
           "hidden" (sample_nav_world true false)).
  - by eexists.
  - sample_wf.
  - discriminate.
  - sample_wf.
  - intros i j a b Hi Hj Ha Hb.
    destruct i as [|[|i]]; destruct j as [|[|j]]; simpl in *;
      try discriminate; try reflexivity;
      simplify_eq; vm_compute in Ha; vm_compute in Hb; discriminate.
Defined.

Lemma navigation_page_table_witness :
  let w := sample_nav_world false false in
  let w' := (@navigation sample_externals sample_sections "sidebar" w).2 in
  exists c',
    World.ctx w' = Some c'
    /\ ScriptRunContext.pages c'
       = @nav_page_table sample_externals (World.heap w)
           (pages_from_nav_sections (nav_sections_of sample_sections))
    /\ NoDup (Dict.keys (ScriptRunContext.pages c')).
Proof.
  apply (@navigation_page_table sample_externals sample_sections "sidebar"
           (sample_nav_world false false) _ 1%nat).
  - sample_wf.
  - vm_compute. reflexivity.
Defined.

Lemma navigation_message_witness :
  let w := sample_nav_world false false in
  let w' := (@navigation sample_externals sample_sections "sidebar" w).2 in
  exists c' nav,
    World.ctx w' = Some c'
    /\ (ScriptRunContext.queue c'
        = ScriptRunContext.queue sample_ctx ++ [MsgNavigation nav]
        \/ ScriptRunContext.queue c'
           = ScriptRunContext.queue sample_ctx
             ++ [MsgPageNotFound ""; MsgNavigation nav])
    /\ NavigationProto.position nav
       = (if decide ("sidebar" = "hidden") then HIDDEN else SIDEBAR)
    /\ NavigationProto.sections nav = Dict.keys (nav_sections_of sample_sections)
    /\ NavigationProto.app_pages nav
       = map (@app_page_entry sample_externals (World.heap w'))
             (section_items (nav_sections_of sample_sections))
    /\ NavigationProto.page_script_hash nav
       = @_script_hash sample_externals (World.heap w' 1%nat).
Proof.
  apply (@navigation_message sample_externals sample_sections "sidebar"
           (sample_nav_world false false) _ sample_ctx 1%nat).
  - sample_wf.
  - reflexivity.
  - vm_compute. reflexivity.
Defined.

Lemma navigation_ordains_returned_page_witness :
  let w := sample_nav_world false false in
  let w' := (@navigation sample_externals sample_sections "sidebar" w).2 in
  1%nat ∈ pages_from_nav_sections (nav_sections_of sample_sections)
  /\ StreamlitPage._can_be_called (World.heap w' 1%nat) = true
  /\ (forall p, p <> 1%nat ->
         StreamlitPage._can_be_called (World.heap w' p)
         = StreamlitPage._can_be_called (World.heap w p))
  /\ (forall p,
         StreamlitPage.title (World.heap w' p) = StreamlitPage.title (World.heap w p)
         /\ StreamlitPage.icon (World.heap w' p) = StreamlitPage.icon (World.heap w p)
         /\ StreamlitPage._page (World.heap w' p)
            = StreamlitPage._page (World.heap w p))
  /\ World.deltas w' = World.deltas w.
Proof.
  apply (@navigation_ordains_returned_page sample_externals sample_sections
           "sidebar" (sample_nav_world false false) _ 1%nat).
  - sample_wf.
  - vm_compute. reflexivity.
Defined.

Lemma navigation_one_default_on_return_witness :
  let w := sample_nav_world false false in
  let w' := (@navigation sample_externals sample_sections "sidebar" w).2 in
  exists default_page,
    default_page ∈ pages_from_nav_sections (nav_sections_of sample_sections)
    /\ forall p,
         p ∈ pages_from_nav_sections (nav_sections_of sample_sections) ->
         StreamlitPage.default (World.heap w' p) = true <-> p = default_page.
Proof.
  apply (@navigation_one_default_on_return sample_externals sample_sections
           "sidebar" (sample_nav_world false false) _ 1%nat).
  - sample_wf.
  - vm_compute. reflexivity.
Defined.

Lemma navigation_keeps_explicit_default_witness :
  let w := sample_nav_world true false in
  let w' := (@navigation sample_externals sample_sections "sidebar" w).2 in
  StreamlitPage.default (World.heap w' 1%nat)
  = StreamlitPage.default (World.heap w 1%nat).
Proof.
  apply (@navigation_keeps_explicit_default sample_externals sample_sections
           "sidebar" (sample_nav_world true false) _ 0%nat 0%nat 1%nat).
  - sample_wf.
  - sample_wf.
  - reflexivity.
  - vm_compute. reflexivity.
Defined.



Lemma navigation_url_pathnames_witness :
  let w := sample_nav_world false false in
  let w' := (@navigation sample_externals sample_sections "sidebar" w).2 in
  exists c' earlier nav,
    World.ctx w' = Some c'
    /\ ScriptRunContext.queue c' = earlier ++ [MsgNavigation nav]
    /\ forall entry,
         entry ∈ NavigationProto.app_pages nav ->
         AppPage.url_pathname entry
         = replace_char " " "_" (AppPage.page_name entry)
         /\ " "%char ∉ chars (AppPage.url_pathname entry).
Proof.
  apply (@navigation_url_pathnames sample_externals sample_sections "sidebar"
           (sample_nav_world false false) _ sample_ctx 1%nat).
  - sample_wf.
  - reflexivity.
  - vm_compute. reflexivity.
Defined.

(** ** [button.py]: forms, page links, defaults *)

Section WidgetExtras.

Context `{Externals}.

Lemma bad_type_false (type : string) :
  type = "primary" \/ type = "secondary" -> bad_type type = false.
Proof. intros [-> | ->]; reflexivity. Qed.

(** X20. [feedback] called with options other than "thumbs" and
    "smiles" raises [StreamlitAPIException] before any policy check,
    registration or message. *)
Theorem feedback_bad_options (options : string) (key : option string)
        (disabled : bool) (on_click : option Callback)
        (args kwargs : option PyObject) (w : World.t) :
  options <> "thumbs" ->
  options <> "smiles" ->
  feedback options key disabled on_click args kwargs w
  = (Raise (StreamlitAPIException (feedback_options_msg options)), w).
Proof.
  intros Ht Hs. unfold feedback, feedback_mapping, cbind, lift.
  rewrite decide_False by done. by rewrite decide_False by done.
Qed.

(** X21. The form rules of [_button], applied when the runtime exists
    and the policy checks have passed: an ordinary button inside a form,
    and a form-submit button outside of one, raise
    [StreamlitAPIException]; no widget is registered and nothing is
    queued. *)
Theorem button_form_rules
        (label : string) (key : option Key) (help : option string)
        (is_form_submitter : bool) (on_click : option Callback)
        (args kwargs : option PyObject) (type : string)
        (disabled use_container_width : bool)
        (ctx : option ScriptRunContext.t) (w : World.t) :
  check_fragment_path_policy w = (Return tt, w) ->
  (is_form_submitter = false ->
   check_callback_rules on_click w = (Return tt, w)) ->
  check_cache_replay_rules w = (Return tt, w) ->
  (forall k, check_session_state_rules None k false w = (Return tt, w)) ->
  runtime_exists w = true ->
  is_in_form w = negb is_form_submitter ->
  _button label key help is_form_submitter on_click args kwargs type disabled
          use_container_width ctx w
  = (Raise (StreamlitAPIException
              (if is_form_submitter then
                 "`st.form_submit_button()` must be used inside an `st.form()`."
                 +++ FORM_DOCS_INFO
               else
                 "`st.button()` can't be used in an `st.form()`."
                 +++ FORM_DOCS_INFO)), w).
Proof.
  intros Hfrag Hcb Hcache Hsess Hrun Hform. unfold _button.
  rewrite (cbind_return _ _ w w tt Hfrag).
  rewrite (cbind_return _ _ w w tt)
    by (destruct is_form_submitter; [done | by apply Hcb]).
  rewrite (cbind_return _ _ w w tt Hcache).
  rewrite (cbind_return _ _ w w tt (Hsess _)).
  rewrite (cbind_return _ _ w w true) by (unfold gets; by rewrite Hrun).
  apply cbind_raise.
  rewrite (cbind_return _ _ w w (negb is_form_submitter))
    by (unfold gets; by rewrite Hform).
  by destruct is_form_submitter.
Qed.

(** X22. [download_button] inside a form raises
    [StreamlitAPIException] once the policy checks have passed, before
    the file is marshalled or the widget registered; nothing is
    queued. *)
Theorem download_button_in_form
        (label : string) (data : DownloadData) (file_name mime : option string)
        (key : option Key) (help : option string) (on_click : option Callback)
        (args kwargs : option PyObject) (type : string)
        (disabled use_container_width : bool) (w : World.t) :
  type = "primary" \/ type = "secondary" ->
  check_cache_replay_rules w = (Return tt, w) ->
  (forall k, check_session_state_rules None k false w = (Return tt, w)) ->
  check_callback_rules on_click w = (Return tt, w) ->
  is_in_form w = true ->
  download_button label data file_name mime key help on_click args kwargs type
                  disabled use_container_width w
  = (Raise (StreamlitAPIException
              ("`st.download_button()` can't be used in an `st.form()`."
               +++ FORM_DOCS_INFO)), w).
Proof.
  intros Htype Hcache Hsess Hcb Hform. unfold download_button.
  rewrite (cbind_return _ _ w w (World.ctx w)) by reflexivity.
  rewrite (bad_type_false type Htype). unfold _download_button.
  rewrite (cbind_return _ _ w w tt Hcache).
  rewrite (cbind_return _ _ w w tt (Hsess _)).
  rewrite (cbind_return _ _ w w tt Hcb).
  rewrite (cbind_return _ _ w w true) by (unfold gets; by rewrite Hform).
  reflexivity.
Qed.

(** X23. [download_button] outside a form, with data of a class that
    [marshall_file] does not know, raises [RuntimeError] naming the
    class; no widget is registered and nothing is queued. *)
Theorem download_button_unsupported_data
        (label type_name : string) (file_name mime : option string)
        (key : option Key) (help : option string) (on_click : option Callback)
        (args kwargs : option PyObject) (type : string)
        (disabled use_container_width : bool) (w : World.t) :
  type = "primary" \/ type = "secondary" ->
  check_cache_replay_rules w = (Return tt, w) ->
  (forall k, check_session_state_rules None k false w = (Return tt, w)) ->
  check_callback_rules on_click w = (Return tt, w) ->
  is_in_form w = false ->
  download_button label (DataOther type_name) file_name mime key help on_click
                  args kwargs type disabled use_container_width w
  = (Raise (RuntimeError ("Invalid binary data format: " +++ type_name)), w).
Proof.
  intros Htype Hcache Hsess Hcb Hform. unfold download_button.
  rewrite (cbind_return _ _ w w (World.ctx w)) by reflexivity.
  rewrite (bad_type_false type Htype). unfold _download_button.
  rewrite (cbind_return _ _ w w tt Hcache).
  rewrite (cbind_return _ _ w w tt (Hsess _)).
  rewrite (cbind_return _ _ w w tt Hcb).
  rewrite (cbind_return _ _ w w false) by (unfold gets; by rewrite Hform).
  rewrite (cbind_return _ _ w w (get_delta_path_str w)) by reflexivity.
  reflexivity.
Qed.

Lemma find_app_page_none (label : option string) (requested : string)
      (pages : list PageInfo.t) (proto : PageLinkProto.t) :
  (forall page_data, page_data ∈ pages ->
                     PageInfo.script_path page_data <> requested) ->
  find_app_page label requested pages proto = proto.
Proof.
  induction pages as [|x pages IH]; intros Hnone; [done|]. simpl.
  rewrite decide_False.
  - apply IH. intros y Hy. apply Hnone. by right.
  - intros E. by apply (Hnone x); [left|].
Qed.



Lemma page_link_icon_step (icon : option string) (w : World.t) :
  icon_ok icon ->
  exists icon',
    forall base : PageLinkProto.t,
      match icon with
      | Some icon =>
          let! icon := lift (validate_icon_or_emoji icon) in
          ret (PageLinkProto.set_icon icon base)
      | None => ret base
      end w
      = (Return (match icon with
                 | Some _ => PageLinkProto.set_icon icon' base
                 | None => base
                 end), w).
Proof.
  intros Hicon. destruct icon as [icon|]; [|by exists ""].
  destruct Hicon as [icon' Hicon']. exists icon'. intros base.
  unfold cbind, lift, ret. by rewrite Hicon'.
Qed.

(** X24. A page given as a path that is not a URL and that no entry of
    the page table has as its script path is refused with
    [StreamlitAPIException]; without a script-run context the table is
    empty, so every such path is refused.  Nothing is queued. *)
Theorem page_link_unknown_page
        (page : string) (label icon help : option string) (disabled : bool)
        (use_container_width : option bool) (w : World.t) :
  is_url page = false ->
  icon_ok icon ->
  (forall page_data,
      page_data ∈ Dict.values (all_app_pages w) ->
      PageInfo.script_path page_data <> requested_page w page) ->
  page_link (PageStr page) label icon help disabled use_container_width w
  = (Raise (StreamlitAPIException
              (page_not_found_msg page
                 (get_main_script_directory
                    (match World.ctx w with
                     | Some ctx => ScriptRunContext.main_script_path ctx
                     | None => ""
                     end)))), w).
Proof.
  intros Hurl Hicon Hnone. unfold page_link, _page_link.
  destruct (page_link_icon_step icon w Hicon) as [icon' Hvalid].
  erewrite cbind_return by apply Hvalid.
  rewrite Hurl.
  rewrite (cbind_return _ _ w w (World.ctx w)) by reflexivity.
  cbv zeta. unfold all_app_pages, requested_page in Hnone.
  rewrite find_app_page_none by exact Hnone.
  rewrite decide_True; [reflexivity|].
  by destruct label, icon, help, use_container_width.
Qed.





End WidgetExtras.

Lemma feedback_bad_options_witness :
  @feedback sample_externals "stars" None false None None None
            (sample_nav_world false false)
  = (Raise (StreamlitAPIException (feedback_options_msg "stars")),
     sample_nav_world false false).
Proof.
  apply (@feedback_bad_options sample_externals "stars"); discriminate.
Defined.

Lemma button_form_rules_witness :
  @_button (sample_externals_in_form true) "Send" None None false None None
           None "primary" false false (Some sample_ctx)
           (sample_nav_world false false)
  = (Raise (StreamlitAPIException
              ("`st.button()` can't be used in an `st.form()`."
               +++ FORM_DOCS_INFO)), sample_nav_world false false).
Proof.
  apply (@button_form_rules (sample_externals_in_form true) "Send" None None
           false None None None "primary" false false (Some sample_ctx)
           (sample_nav_world false false)); reflexivity.
Defined.

Lemma download_button_in_form_witness :
  @download_button (sample_externals_in_form true) "Save" (DataStr "a,b")
                   None None None None None None None "secondary" false false
                   (sample_nav_world false false)
  = (Raise (StreamlitAPIException
              ("`st.download_button()` can't be used in an `st.form()`."
               +++ FORM_DOCS_INFO)), sample_nav_world false false).
Proof.
  apply (@download_button_in_form (sample_externals_in_form true) "Save"
           (DataStr "a,b") None None None None None None None "secondary"
           false false (sample_nav_world false false));
    first [by right | reflexivity].
Defined.

Lemma download_button_unsupported_data_witness :
  @download_button sample_externals "Save" (DataOther "<class 'int'>")
                   None None None None None None None "secondary" false false
                   (sample_nav_world false false)
  = (Raise (RuntimeError ("Invalid binary data format: " +++ "<class 'int'>")),
     sample_nav_world false false).
Proof.
  apply (@download_button_unsupported_data sample_externals "Save"
           "<class 'int'>" None None None None None None None "secondary"
           false false (sample_nav_world false false));
    first [by right | reflexivity].
Defined.

Lemma page_link_unknown_page_witness :
  let w := sample_world None (sample_page "Home page" false)
                        (sample_page "About" false) in
  @page_link sample_externals (PageStr "pages/page_one.py") (Some "One")
             None None false None w
  = (Raise (StreamlitAPIException
              (@page_not_found_msg sample_externals "pages/page_one.py"
                 (@get_main_script_directory sample_externals ""))), w).
Proof.
  intros w.
  apply (@page_link_unknown_page sample_externals "pages/page_one.py"
           (Some "One") None None false None w).
  - reflexivity.
  - exact I.
  - intros page_data Hin. by apply elem_of_nil in Hin.
Defined.



(** The default list of the doc string, [False, True, True]. *)
Example default_indices_run :
  default_indices 0 [false; true; true] = [1; 2].
Proof. reflexivity. Qed.
